(** * The contact-form relay (proxy2AM): validation, admission, forwarding

    A shallow embedding of the two server files of the repository,
    [src/index.mjs] and the second server file (kept here under the name
    [Part_000]).  Both define [getClientIp], [validateContactBody], the
    [contactRateLimiter] configuration and the [POST /contact] handler; they
    differ in the consent check ([toBoolean] exists only in the second file)
    and in the members of the forwarded payload.  A value of type [revision]
    selects the file, and every definition branches on it exactly where the
    two files differ.

    Conventions of the model:
    - a JavaScript string is a [string] whose characters are UTF-16 code
      units below 256 (the Latin-1 range); [trim] and [toLowerCase] are
      written out for that range;
    - a JSON number is a binary64 [float], as [JSON.parse] produces it;
    - the body of a request is a parsed JSON object (a top-level array has
      none of the members the server reads and behaves as the empty object);
    - reading a property yields an [option value]: [None] is [undefined];
    - an expression that may throw yields a [completion];
    - the clock, the JWT signer and the downstream are inputs of the
      handler (the record [World]) and what the handler does besides
      answering is returned as a list of [event]s. *)

From Stdlib Require Import ZArith Floats Ascii String Bool Lia.
From stdpp Require Import base strings gmap list.

Set Warnings "-register-all,-abstract-large-number".

Local Open Scope string_scope.
Local Open Scope nat_scope.

(** ** Strings *)

(** WhiteSpace and LineTerminator code units below 256: TAB, LF, VT, FF, CR,
    SP and NBSP.  These are what [String.prototype.trim] strips. *)
Definition isWhiteSpace (c : ascii) : bool :=
  let n := nat_of_ascii c in
  ((9 <=? n) && (n <=? 13)) || (n =? 32) || (n =? 160).

Fixpoint trimStart (s : string) : string :=
  match s with
  | EmptyString => EmptyString
  | String c s' => if isWhiteSpace c then trimStart s' else s
  end.

Fixpoint trimEnd (s : string) : string :=
  match s with
  | EmptyString => EmptyString
  | String c s' =>
      match trimEnd s' with
      | EmptyString => if isWhiteSpace c then EmptyString else String c EmptyString
      | t => String c t
      end
  end.

(** [s.trim()] *)
Definition trim (s : string) : string := trimEnd (trimStart s).

(** Lower-casing of one code unit below 256: A-Z, and the Latin-1 capitals
    U+00C0..U+00DE except the multiplication sign U+00D7. *)
Definition lowerUnit (c : ascii) : ascii :=
  let n := nat_of_ascii c in
  if ((65 <=? n) && (n <=? 90)) || ((192 <=? n) && (n <=? 222) && negb (n =? 215))
  then ascii_of_nat (n + 32)
  else c.

(** [s.toLowerCase()] *)
Fixpoint toLowerCase (s : string) : string :=
  match s with
  | EmptyString => EmptyString
  | String c s' => String (lowerUnit c) (toLowerCase s')
  end.

(** [prefix.length <= s.length && s.startsWith(prefix)] *)
Fixpoint startsWith (s prefix : string) : bool :=
  match prefix, s with
  | EmptyString, _ => true
  | String _ _, EmptyString => false
  | String p prefix', String c s' => Ascii.eqb p c && startsWith s' prefix'
  end.

(** [s.includes(part)] *)
Fixpoint includes (s part : string) : bool :=
  startsWith s part ||
  match s with
  | EmptyString => false
  | String _ s' => includes s' part
  end.

(** [parts.join(sep)] on an array of strings *)
Fixpoint join (sep : string) (parts : list string) : string :=
  match parts with
  | [] => ""
  | [p] => p
  | p :: rest => p +:+ sep +:+ join sep rest
  end.

(** [s.split(',')[0]]: the characters before the first comma. *)
Fixpoint firstSegment (s : string) : string :=
  match s with
  | EmptyString => EmptyString
  | String c s' => if Ascii.eqb c "," then EmptyString else String c (firstSegment s')
  end.

(** [n] copies of the code unit [c] (used to build long messages). *)
Fixpoint replicate_unit (n : nat) (c : ascii) : string :=
  match n with
  | O => EmptyString
  | S n' => String c (replicate_unit n' c)
  end.

(** ** JSON values and JavaScript coercions *)

(** What [express.json()] hands to the handler: the result of [JSON.parse]. *)
Inductive value : Type :=
| JNull
| JBool (b : bool)
| JNum (f : float)
| JStr (s : string)
| JArr (items : list value)
| JObj (members : gmap string value).

(** A parsed JSON object; [o !! "k"] is the property read [o.k]. *)
Abbreviation object := (gmap string value).

(** ToBoolean, on the result of a property read. *)
Definition truthy (x : option value) : bool :=
  match x with
  | None => false
  | Some JNull => false
  | Some (JBool b) => b
  | Some (JNum f) => negb (PrimFloat.is_zero f || PrimFloat.is_nan f)
  | Some (JStr s) => negb (String.eqb s "")
  | Some (JArr _) => true
  | Some (JObj _) => true
  end.

(** [typeof x === 'string'] *)
Definition isString (x : option value) : bool :=
  match x with
  | Some (JStr _) => true
  | _ => false
  end.

(** [typeof x === 'boolean'] *)
Definition isBoolean (x : option value) : bool :=
  match x with
  | Some (JBool _) => true
  | _ => false
  end.

(** [x === true] *)
Definition isTrue (x : option value) : bool :=
  match x with
  | Some (JBool true) => true
  | _ => false
  end.

(** [a || b] *)
Definition js_or (a b : option value) : option value :=
  if truthy a then a else b.

(** The exceptions the model distinguishes. *)
Variant exception : Type :=
| TypeError
| SigningError.

(** The outcome of evaluating an expression: a value, or a thrown exception. *)
Inductive completion (A : Type) : Type :=
| Normal (a : A)
| Throw (e : exception).
Arguments Normal {A} a.
Arguments Throw {A} e.

#[global] Instance completion_ret : MRet completion := fun A a => Normal a.
#[global] Instance completion_bind : MBind completion :=
  fun A B k m => match m with Normal a => k a | Throw e => Throw e end.

(** [x.trim()]: only a string has a [trim] method; on [undefined] and [null]
    the property read throws, on every other value [x.trim] is not a function
    (an own member called [trim] of a parsed object is never one). *)
Definition callTrim (x : option value) : completion string :=
  match x with
  | Some (JStr s) => Normal (trim s)
  | _ => Throw TypeError
  end.

(** The two conversions between strings and numbers of ECMAScript
    (StringToNumber and Number::toString).  They are part of the language, not
    of the repository, and are taken as given: every theorem holds for any
    choice of them. *)
Class NumberConversions : Type := {
  StringToNumber : string -> float;
  NumberToString : float -> string
}.

Section Coercions.
Context {conv : NumberConversions}.

(** ToString.  An array is joined with commas, [null] elements as the empty
    string; a parsed object has [Object.prototype.toString] unless it has an own
    member called [toString], which is not callable, and then no method yields a
    primitive and the conversion throws. *)
Fixpoint ToString (v : value) : completion string :=
  match v with
  | JNull => Normal "null"
  | JBool b => Normal (if b then "true" else "false")
  | JNum f => Normal (NumberToString f)
  | JStr s => Normal s
  | JArr items =>
      (fix joinItems (l : list value) : completion string :=
         match l with
         | [] => Normal ""
         | x :: rest =>
             a ← match x with JNull => Normal "" | _ => ToString x end;
             match rest with
             | [] => Normal a
             | _ => b ← joinItems rest; Normal (a +:+ "," +:+ b)
             end
         end) items
  | JObj o =>
      match o !! "toString" with
      | Some _ => Throw TypeError
      | None => Normal "[object Object]"
      end
  end.

(** ToNumber, on the result of a property read; arrays and objects go through
    ToPrimitive, which for them is [ToString]. *)
Definition ToNumber (x : option value) : completion float :=
  match x with
  | None => Normal PrimFloat.nan
  | Some JNull => Normal 0%float
  | Some (JBool b) => Normal (if b then 1%float else 0%float)
  | Some (JNum f) => Normal f
  | Some (JStr s) => Normal (StringToNumber s)
  | Some (JArr items) => s ← ToString (JArr items); Normal (StringToNumber s)
  | Some (JObj o) => s ← ToString (JObj o); Normal (StringToNumber s)
  end.

(** [x > n] for a number [n]. *)
Definition greaterThan (x : option value) (n : float) : completion bool :=
  f ← ToNumber x; Normal (PrimFloat.ltb n f).

(** [m.length > 5000] for a truthy [m], by the kind of [m]: the length of a
    string or of an array is its number of code units or of elements; a parsed
    object has the member [length] it was given, or none; a number and a
    boolean have none, and [undefined > 5000] is false. *)
Definition lengthExceeds5000 (m : value) : completion bool :=
  match m with
  | JStr s => Normal (5000 <? Z.of_nat (String.length s))%Z
  | JArr items => Normal (5000 <? Z.of_nat (length items))%Z
  | JObj o => greaterThan (o !! "length") 5000%float
  | JNull | JBool _ | JNum _ => Normal false
  end.

End Coercions.

(** ** The submission validator *)

(** The two server files. *)
Variant revision : Type :=
| Index_mjs   (* src/index.mjs *)
| Part_000.   (* the second server file *)

(** [toBoolean(value)] (second file). *)
Definition toBoolean (x : option value) : bool :=
  match x with
  | Some (JBool b) => b
  | Some (JStr s) => String.eqb (toLowerCase s) "true"
  | _ => false
  end.

(** The left operand of [!== true] under "Check privacy consent":
    [body.privacyConsent] in [index.mjs], [toBoolean(body.privacyConsent)] in
    the second file. *)
Definition consentGiven (rev : revision) (x : option value) : bool :=
  match rev with
  | Index_mjs => isTrue x
  | Part_000 => toBoolean x
  end.

(** The [errors] member of the validator's result: the array itself on the
    honeypot path, the joined string or [null] otherwise. *)
Variant errorsField : Type :=
| ErrArray (reasons : list string)
| ErrJoined (text : string)
| ErrNull.

Record ValidationResult : Type := {
  valid : bool;
  errors : errorsField
}.

(** [errors.push(reason)] under a condition. *)
Definition pushIf (c : bool) (reason : string) (errs : list string) : list string :=
  if c then errs ++ [reason] else errs.

(** [!x || typeof x !== 'string' || x.trim() === ''].  The call of [trim] is
    reached only for a string. *)
Definition isBlank (x : option value) : bool :=
  negb (truthy x) || negb (isString x) ||
  match x with
  | Some (JStr s) => String.eqb (trim s) ""
  | _ => true
  end.

(** [{ valid: errors.length === 0,
       errors: errors.length > 0 ? errors.join(', ') : null }] *)
Definition summary (errs : list string) : ValidationResult :=
  {| valid := length errs =? 0;
     errors := if 0 <? length errs then ErrJoined (join ", " errs) else ErrNull |}.

Section Validator.
Context {conv : NumberConversions}.

(** [body.honeypot && body.honeypot.trim() !== ''] *)
Definition honeypotFilled (body : object) : completion bool :=
  if truthy (body !! "honeypot")
  then t ← callTrim (body !! "honeypot"); Normal (negb (String.eqb t ""))
  else Normal false.

(** [body.message && body.message.length > 5000] *)
Definition messageTooLong (body : object) : completion bool :=
  match body !! "message" with
  | Some m => if truthy (Some m) then lengthExceeds5000 m else Normal false
  | None => Normal false
  end.

(** The array [errors] when the [return] statement at the end of
    [validateContactBody] is reached: the pushes of the five checks that follow
    the honeypot check, in program order. *)
Definition fieldErrors (rev : revision) (body : object) : completion (list string) :=
  let errs := [] in
  let errs := pushIf (isBlank (body !! "name")) "Name is required" errs in
  let errs := pushIf (isBlank (body !! "email")) "Email is required" errs in
  let errs := pushIf (isBlank (body !! "subject")) "Subject is required" errs in
  let errs := pushIf (isBlank (body !! "message")) "Message is required" errs in
  let errs := pushIf (negb (consentGiven rev (body !! "privacyConsent")))
                "Privacy consent is required" errs in
  long ← messageTooLong body;
  let errs := pushIf long "Message must be 5000 characters or less" errs in
  Normal errs.

(** [validateContactBody(body)] *)
Definition validateContactBody (rev : revision) (body : object)
  : completion ValidationResult :=
  honeypotFilled body ≫= λ spam : bool,
  if spam
  then Normal {| valid := false; errors := ErrArray ["Spam detected"] |}
  else errs ← fieldErrors rev body; Normal (summary errs).

End Validator.

(** [result.errors] mentions [reason]: as an element of the array, or as a
    part of the joined string. *)
Definition reports (r : ValidationResult) (reason : string) : bool :=
  match errors r with
  | ErrArray reasons => existsb (String.eqb reason) reasons
  | ErrJoined text => includes text reason
  | ErrNull => false
  end.

(** ** Requests and client identity *)

Record Request : Type := {
  req_body : object;                    (* req.body, parsed by express.json() *)
  req_headers : gmap string string;     (* req.headers, names in lower case *)
  req_ip : option string;               (* req.ip *)
  socket_remoteAddress : option string  (* req.socket.remoteAddress *)
}.

(** ToBoolean of a header or an address: present and not the empty string. *)
Definition present (x : option string) : bool :=
  match x with
  | Some s => negb (String.eqb s "")
  | None => false
  end.

(** [getClientIp(req)] *)
Definition getClientIp (req : Request) : string :=
  let forwarded := req_headers req !! "x-forwarded-for" in
  if present forwarded
  then trim (firstSegment (default "" forwarded))
  else if present (socket_remoteAddress req)
       then default "" (socket_remoteAddress req)
       else "unknown".

(** One code unit of [[\d.]]. *)
Definition isDigitOrDot (c : ascii) : bool :=
  let n := nat_of_ascii c in
  ((48 <=? n) && (n <=? 57)) || (n =? 46).

Fixpoint allDigitOrDot (s : string) : bool :=
  match s with
  | EmptyString => true
  | String c s' => isDigitOrDot c && allDigitOrDot s'
  end.

(** [firstIp && /^[\d.]+$/.test(firstIp)] *)
Definition looksLikeIp (firstIp : string) : bool :=
  negb (String.eqb firstIp "") && allDigitOrDot firstIp.

(** [keyGenerator(req)] of the second file's limiter configuration. *)
Definition keyGenerator (req : Request) : string :=
  let forwarded := req_headers req !! "x-forwarded-for" in
  let firstIp := trim (firstSegment (default "" forwarded)) in
  if present forwarded && looksLikeIp firstIp
  then firstIp
  else if present (req_ip req) then default "" (req_ip req)
  else if present (socket_remoteAddress req) then default "" (socket_remoteAddress req)
  else "unknown".

(** ** The handler of POST /contact *)

Record Response : Type := {
  status : Z;                       (* res.status(...), 200 when not set *)
  json : list (string * value)      (* the members given to res.json(...) *)
}.

(** What [fetch(N8N_WEBHOOK_URL, ...)] does: it rejects, or it resolves to a
    response with a status and a body text ([None] when [response.text()]
    rejects). *)
Variant FetchOutcome : Type :=
| FetchRejected (message : string)
| FetchResponse (status : Z) (text : option string).

(** [response.ok]: the status is in the range 200-299. *)
Definition responseOk (status : Z) : bool :=
  ((200 <=? status) && (status <=? 299))%Z.

(** What one request meets outside the handler: the clock, the signer and
    the downstream, given the bearer token and the serialised members. *)
Record World : Type := {
  toISOString_now : string;
  signJWT : completion string;
  downstream : string -> list (string * value) -> FetchOutcome
}.

Variant logLine : Type :=
| LogStatus (status : Z)          (* n8n webhook returned status ... *)
| LogWebhookUrl                   (* n8n webhook URL: ... *)
| LogErrorResponse (text : string) (* n8n error response: ... *)
| LogForwardError (message : string)  (* Error forwarding to n8n: ... *)
| LogUnexpected (e : exception).  (* Unexpected error in /contact: ... *)

Variant event : Type :=
| Validate (body : object)                         (* validateContactBody(req.body) *)
| Fetch (jwt : string) (sent : list (string * value))  (* fetch(N8N_WEBHOOK_URL, ...) *)
| ConsoleError (line : logLine).

(** A number that [JSON.stringify] writes as a number: neither NaN nor an
    infinity. *)
Definition isFinite (f : float) : bool :=
  negb (PrimFloat.is_nan f || PrimFloat.is_infinity f).

(** The value that the text written by [JSON.stringify] for [v] denotes: a
    number that is not finite is written as [null] and negative zero as [0],
    also inside arrays and objects; everything else is written as it is.  (A
    parsed object has no callable [toJSON].) *)
Fixpoint JSON_value (v : value) : value :=
  match v with
  | JNum f =>
      if isFinite f
      then (if PrimFloat.is_zero f then JNum 0%float else JNum f)
      else JNull
  | JArr items => JArr (JSON_value <$> items)
  | JObj o => JObj (JSON_value <$> o)
  | JNull | JBool _ | JStr _ => v
  end.

(** [JSON.stringify] of an object literal, as the list of members it writes:
    a member whose value is [undefined] is left out; the others are written in
    the order of the literal, each with the value [JSON_value] gives. *)
Definition JSON_stringify (o : list (string * option value)) : list (string * value) :=
  omap (λ m, pair (fst m) <$> (JSON_value <$> snd m)) o.

(** The value written for key [k], if [k] is written. *)
Fixpoint member (k : string) (ms : list (string * value)) : option value :=
  match ms with
  | [] => None
  | (k', v) :: rest => if String.eqb k k' then Some v else member k rest
  end.

(** [validation.errors] as a member of the 400 answer. *)
Definition errorsValue (e : errorsField) : value :=
  match e with
  | ErrArray reasons => JArr (JStr <$> reasons)
  | ErrJoined text => JStr text
  | ErrNull => JNull
  end.

Definition serverError : Response :=
  {| status := 500; json := [("ok", JBool false); ("error", JStr "Server error")] |}.

Definition n8nError : Response :=
  {| status := 500; json := [("ok", JBool false); ("error", JStr "n8n error")] |}.

Definition okResponse : Response :=
  {| status := 200; json := [("ok", JBool true)] |}.

Definition badRequest (e : errorsField) : Response :=
  {| status := 400; json := [("ok", JBool false); ("error", errorsValue e)] |}.

(** [x ? x.trim() : null] *)
Definition trimOrNull (x : option value) : completion (option value) :=
  if truthy x then t ← callTrim x; Normal (Some (JStr t)) else Normal (Some JNull).

(** The object literal [payload], member by member in the order of the
    source.  [index.mjs] has neither the two consent members nor
    [timestamp]. *)
Definition payload (rev : revision) (w : World) (req : Request)
  : completion (list (string * option value)) :=
  let body := req_body req in
  let userAgent :=
    js_or (body !! "userAgent")
      (js_or (JStr <$> req_headers req !! "user-agent") (Some JNull)) in
  name ← callTrim (body !! "name");
  email ← callTrim (body !! "email");
  subject ← callTrim (body !! "subject");
  message ← callTrim (body !! "message");
  company ← trimOrNull (body !! "company");
  phone ← trimOrNull (body !! "phone");
  Normal
    ([("name", Some (JStr name)); ("email", Some (JStr email));
      ("subject", Some (JStr subject)); ("message", Some (JStr message));
      ("company", company); ("phone", phone)]
     ++ match rev with
        | Index_mjs => []
        | Part_000 =>
            [("whatsappConsent", Some (JBool (toBoolean (body !! "whatsappConsent"))));
             ("privacyConsent", Some (JBool (toBoolean (body !! "privacyConsent"))))]
        end
     ++ [("ip", Some (JStr (getClientIp req)));
         ("userAgent", userAgent);
         ("language", js_or (body !! "language") (Some JNull))]
     ++ match rev with
        | Index_mjs => []
        | Part_000 => [("timestamp", js_or (body !! "timestamp") (Some JNull))]
        end
     ++ [("createdAt", Some (JStr (toISOString_now w)))])%list.

(** What is logged when the downstream answers with a status that is not ok. *)
Definition rejectionLog (rev : revision) (status : Z) (text : option string) : list event :=
  match rev with
  | Index_mjs => [ConsoleError (LogStatus status)]
  | Part_000 =>
      [ConsoleError (LogStatus status); ConsoleError LogWebhookUrl;
       ConsoleError (LogErrorResponse (default "Unable to read error response" text))]
  end.

Section Handler.
Context {conv : NumberConversions}.

(** The body of [app.post('/contact', contactRateLimiter, async (req, res) => ...)]:
    the answer, and what was called and logged on the way. *)
Definition contactHandler (rev : revision) (w : World) (req : Request)
  : Response * list event :=
  let called := [Validate (req_body req)] in
  let failed (e : exception) :=
    (serverError, (called ++ [ConsoleError (LogUnexpected e)])%list) in
  match validateContactBody rev (req_body req) with
  | Throw e => failed e
  | Normal validation =>
      if negb (valid validation)
      then (badRequest (errors validation), called)
      else
        match payload rev w req with
        | Throw e => failed e
        | Normal p =>
            match signJWT w with
            | Throw e => failed e
            | Normal jwt =>
                let sent := JSON_stringify p in
                let called := (called ++ [Fetch jwt sent])%list in
                match downstream w jwt sent with
                | FetchRejected message =>
                    (n8nError, (called ++ [ConsoleError (LogForwardError message)])%list)
                | FetchResponse st text =>
                    if responseOk st
                    then (okResponse, called)
                    else (n8nError, (called ++ rejectionLog rev st text)%list)
                end
            end
        end
  end.

End Handler.

(** ** Admission control *)

(** The options given to [rateLimit({...})] in both files. *)
Module contactRateLimiter.

Definition windowMs : Z := 60 * 1000.

Definition max : nat := 3.

(** [handler(req, res)]: the answer to a request over the limit. *)
Definition handler : Response :=
  {| status := 429;
     json := [("ok", JBool false);
              ("error", JStr "Too many requests, please try again later")] |}.

End contactRateLimiter.

(** The counter of one identity: the requests counted in its current window
    and the time, in milliseconds, at which that window lapses. *)
Record Window : Type := {
  hits : nat;
  resetTime : Z
}.

(** Modelled from the spec: the middleware that [rateLimit(...)] returns
    belongs to the express-rate-limit package, whose code is not under src/.
    Section 4.3 of the specification gives its policy: a fixed window of
    [windowMs] per identity, anchored to that identity's first request in the
    current window; every request is counted; an entry expires when its
    window lapses.  [increment key t st] counts one request of [key] at time
    [t] and returns the new table with the number of requests of [key] in its
    current window. *)
Definition increment (key : string) (t : Z) (st : gmap string Window)
  : gmap string Window * nat :=
  match st !! key with
  | Some w =>
      if (t <? resetTime w)%Z
      then (<[key := {| hits := S (hits w); resetTime := resetTime w |}]> st, S (hits w))
      else (<[key := {| hits := 1; resetTime := (t + contactRateLimiter.windowMs)%Z |}]> st, 1)
  | None =>
      (<[key := {| hits := 1; resetTime := (t + contactRateLimiter.windowMs)%Z |}]> st, 1)
  end.

(** One request as the server meets it: when it arrives, and what its handler
    would find outside. *)
Record Arrival : Type := {
  arrives : Z;
  world : World;
  request : Request
}.

Section Route.
Context {conv : NumberConversions}.

(** Modelled from the spec: the route [app.post('/contact',
    contactRateLimiter, handler)], with the policy of section 4.3 for the
    middleware: at most [max] requests of an identity pass to the handler in one
    window, the others are answered by the limiter's own [handler] and the
    route's handler is not called.  [keyOf] is the key generator in use
    ([keyGenerator] in the second file, the package's default in
    [index.mjs]). *)
Definition contactRoute (rev : revision) (keyOf : Request -> string)
    (st : gmap string Window) (a : Arrival)
  : gmap string Window * (Response * list event) :=
  let counted := increment (keyOf (request a)) (arrives a) st in
  if snd counted <=? contactRateLimiter.max
  then (fst counted, contactHandler rev (world a) (request a))
  else (fst counted, (contactRateLimiter.handler, [])).

(** The answers to a sequence of arrivals, the table threaded through. *)
Fixpoint serve (rev : revision) (keyOf : Request -> string)
    (st : gmap string Window) (arrivals : list Arrival)
  : list (Response * list event) :=
  match arrivals with
  | [] => []
  | a :: rest =>
      let r := contactRoute rev keyOf st a in
      snd r :: serve rev keyOf (fst r) rest
  end.

End Route.

(** The arrivals of identity [key] among [arrivals]. *)
Definition arrivalsOf (keyOf : Request -> string) (key : string)
    (arrivals : list Arrival) : list Arrival :=
  filter (λ a, keyOf (request a) = key) arrivals.

(** [key] has no window open at time [t]. *)
Definition noOpenWindow (st : gmap string Window) (key : string) (t : Z) : Prop :=
  match st !! key with
  | Some w => (resetTime w <= t)%Z
  | None => True
  end.

(** ** Reading the claims *)

(** The reasons whose check failed, in the fixed order name, email, subject,
    message, consent, length. *)
Definition failedReasons (name email subject message consent long : bool) : list string :=
  (if name then ["Name is required"] else []) ++
  (if email then ["Email is required"] else []) ++
  (if subject then ["Subject is required"] else []) ++
  (if message then ["Message is required"] else []) ++
  (if consent then ["Privacy consent is required"] else []) ++
  (if long then ["Message must be 5000 characters or less"] else []).

(** Two code units are the same up to the case of an ASCII letter. *)
Definition sameLetter (a b : ascii) : bool :=
  let la := nat_of_ascii a in
  let lb := nat_of_ascii b in
  (la =? lb) ||
  ((65 <=? la) && (la <=? 90) && (lb =? la + 32)) ||
  ((65 <=? lb) && (lb <=? 90) && (la =? lb + 32)).

(** Equality of strings, case-insensitively in the ASCII letters. *)
Fixpoint equalsIgnoreCase (s t : string) : bool :=
  match s, t with
  | EmptyString, EmptyString => true
  | String a s', String b t' => sameLetter a b && equalsIgnoreCase s' t'
  | _, _ => false
  end.

(** The values of [privacyConsent] that the specification accepts: boolean
    true, or a string equal to "true" case-insensitively. *)
Definition consentAccepted (x : option value) : bool :=
  match x with
  | Some (JBool b) => b
  | Some (JStr s) => equalsIgnoreCase s "true"
  | _ => false
  end.

(** The honeypot check lets the body through: the field is absent or falsy,
    or a string that is empty after trimming. *)
Definition honeypotEmpty (body : object) : Prop :=
  truthy (body !! "honeypot") = false ∨
  ∃ s, body !! "honeypot" = Some (JStr s) ∧ trim s = "".

(** The downstream did not accept the forward: the request failed, or the
    status of the response is not in the success range. *)
Definition forwardFailed (o : FetchOutcome) : Prop :=
  match o with
  | FetchRejected _ => True
  | FetchResponse st _ => responseOk st = false
  end.

Section LengthCheck.
Context {conv : NumberConversions}.

(** The comparison [body.message.length > 5000] does not throw: the message
    is not an object, or its member [length] converts to a number. *)
Definition lengthComparable (body : object) : Prop :=
  match body !! "message" with
  | Some (JObj o) => ∃ f, ToNumber (o !! "length") = Normal f
  | _ => True
  end.

(** The message fails the presence check and yet exceeds the length bound:
    a string longer than 5000 code units that is empty after trimming, an
    array of more than 5000 elements, or an object whose member [length]
    compares greater than 5000. *)
Definition oversizedBlankMessage (body : object) : Prop :=
  match body !! "message" with
  | Some (JStr s) => trim s = "" ∧ (5000 < Z.of_nat (String.length s))%Z
  | Some (JArr items) => (5000 < Z.of_nat (length items))%Z
  | Some (JObj o) => greaterThan (o !! "length") 5000%float = Normal true
  | _ => False
  end.

End LengthCheck.

(** The values of [privacyConsent] for which a file pushes no consent
    reason, in the words of the specification for the second file, and boolean
    true alone for [index.mjs]. *)
Definition acceptsConsent (rev : revision) (x : option value) : Prop :=
  match rev with
  | Index_mjs => x = Some (JBool true)
  | Part_000 => consentAccepted x = true
  end.

(** The six fields the validator reads. *)
Definition validatedFields : list string :=
  ["honeypot"; "name"; "email"; "subject"; "message"; "privacyConsent"].

(** One choice of the two conversions, for the closed examples: the one in
    which no string is a numeric literal.  No example below has an object for
    a message whose [length] is a string or an array, so none of them reaches
    either conversion. *)
Definition noNumericStrings : NumberConversions :=
  {| StringToNumber := λ _, PrimFloat.nan; NumberToString := λ _, "NaN" |}.

(** Identity [key] has had [n] requests counted since time [t0], all in one
    window that stays open until [t0 + windowMs] at least. *)
Definition countedSince (st : gmap string Window) (key : string) (t0 : Z) (n : nat) : Prop :=
  match n with
  | O => noOpenWindow st key t0
  | S _ => ∃ w, st !! key = Some w ∧ hits w = n ∧
                (t0 + contactRateLimiter.windowMs <= resetTime w)%Z
  end.

(** A submission that passes every check. *)
Definition completeBody : object :=
  {[ "name" := JStr " Ada Lovelace ";
     "email" := JStr "ada@example.com";
     "subject" := JStr "Analytical engine";
     "message" := JStr "Hello";
     "privacyConsent" := JStr "TRUE" ]}.

(** The same submission from a bot that filled the honeypot and refused
    consent. *)
Definition botBody : object :=
  <["honeypot" := JStr "bot"]> (<["privacyConsent" := JStr "false"]> completeBody).

(** A request with a User-Agent header and a forwarded address. *)
Definition browserRequest (body : object) : Request :=
  {| req_body := body;
     req_headers := {[ "user-agent" := "curl/8.0"; "x-forwarded-for" := "203.0.113.7, 10.0.0.1" ]};
     req_ip := Some "10.0.0.1";
     socket_remoteAddress := Some "10.0.0.1" |}.

(** A downstream that answers every forward with [status] and [text]. *)
Definition answering (status : Z) (text : string) : World :=
  {| toISOString_now := "2024-11-17T10:30:00.000Z";
     signJWT := Normal "header.claims.signature";
     downstream := λ _ _, FetchResponse status (Some text) |}.

(** Four arrivals of the same client within three seconds. *)
Definition burst : list Arrival :=
  (λ t, {| arrives := t; world := answering 200 "ok"; request := browserRequest completeBody |})
  <$> [0; 1000; 2000; 3000]%Z.

(** Every code unit of [s] satisfies [P]. *)
Fixpoint everyUnit (P : ascii -> bool) (s : string) : bool :=
  match s with
  | EmptyString => true
  | String c s' => P c && everyUnit P s'
  end.

(** The code unit is not a comma. *)
Definition notComma (c : ascii) : bool := negb (Ascii.eqb c ",").

(** What [x ? x.trim() : null] evaluates without throwing: a value that is
    falsy (or absent), or a string. *)
Definition textOrFalsy (x : option value) : Prop :=
  truthy x = false ∨ isString x = true.

(** The calls of [fetch] among the events of one request. *)
Fixpoint countFetch (events : list event) : nat :=
  match events with
  | [] => 0
  | Fetch _ _ :: rest => S (countFetch rest)
  | _ :: rest => countFetch rest
  end.

(** The keys of the object literal [payload], in the order of each file. *)
Definition payloadKeys (rev : revision) : list string :=
  match rev with
  | Index_mjs =>
      ["name"; "email"; "subject"; "message"; "company"; "phone";
       "ip"; "userAgent"; "language"; "createdAt"]
  | Part_000 =>
      ["name"; "email"; "subject"; "message"; "company"; "phone";
       "whatsappConsent"; "privacyConsent";
       "ip"; "userAgent"; "language"; "timestamp"; "createdAt"]
  end.

(** A submission that tries to set the members the server assigns, with a
    company of spaces only and a language that is not a string. *)
Definition craftedBody : object :=
  <["createdAt" := JStr "1970-01-01T00:00:00.000Z"]>
    (<["ip" := JStr "127.0.0.1"]>
       (<["company" := JStr "   "]>
          (<["language" := JArr [JStr "de"; JStr "en"]]>
             (<["whatsappConsent" := JStr "True"]> completeBody)))).


(** A world whose signer throws. *)
Definition unsigned : World :=
  {| toISOString_now := "2024-11-17T10:30:00.000Z";
     signJWT := Throw SigningError;
     downstream := λ _ _, FetchResponse 200 (Some "ok") |}.

(** What the second file sends for [craftedBody] in a [browserRequest]. *)
Definition craftedSent : list (string * value) :=
  [("name", JStr "Ada Lovelace"); ("email", JStr "ada@example.com");
   ("subject", JStr "Analytical engine"); ("message", JStr "Hello");
   ("company", JStr ""); ("phone", JNull);
   ("whatsappConsent", JBool true); ("privacyConsent", JBool true);
   ("ip", JStr "203.0.113.7"); ("userAgent", JStr "curl/8.0");
   ("language", JArr [JStr "de"; JStr "en"]); ("timestamp", JNull);
   ("createdAt", JStr "2024-11-17T10:30:00.000Z")].

(** ** Lemmas on the validator *)

Section ValidatorFacts.
Context {conv : NumberConversions}.

Lemma honeypotFilled_empty (body : object) :
  honeypotEmpty body ↔ honeypotFilled body = Normal false.
Proof.
  unfold honeypotEmpty, honeypotFilled. split.
  - intros [Hf | (s & Hs & Ht)].
    + now rewrite Hf.
    + rewrite Hs. cbn. destruct (String.eqb s ""); cbn; [reflexivity|].
      now rewrite Ht.
  - destruct (body !! "honeypot") as [v|] eqn:Hv; [|now left].
    destruct (truthy (Some v)) eqn:Ht; [|now left].
    destruct v; cbn; try discriminate.
    destruct (String.eqb (trim s) "") eqn:He; cbn; [|discriminate].
    intros _. right. exists s. split; [reflexivity|].
    now apply String.eqb_eq.
Qed.

Lemma honeypotFilled_string (body : object) (s : string) :
  body !! "honeypot" = Some (JStr s) → trim s ≠ "" →
  honeypotFilled body = Normal true.
Proof.
  intros Hs Ht. unfold honeypotFilled. rewrite Hs.
  assert (Hne : String.eqb s "" = false).
  { apply String.eqb_neq. intros ->. now apply Ht. }
  cbn. rewrite Hne. cbn.
  apply String.eqb_neq in Ht. now rewrite Ht.
Qed.

Lemma messageTooLong_comparable (body : object) :
  lengthComparable body ↔ ∃ long, messageTooLong body = Normal long.
Proof.
  unfold lengthComparable, messageTooLong.
  destruct (body !! "message") as [m|]; [|split; eauto].
  destruct m as [|b|f|s|items|o].
  1-5: split; [intros _; destruct (truthy _); cbn; eexists; reflexivity | trivial].
  cbn. unfold greaterThan. split.
  - intros [f Hf]. rewrite Hf. cbn. eauto.
  - intros [long Hl]. destruct (ToNumber (o !! "length")); [eauto|discriminate].
Qed.

Lemma fieldErrors_failedReasons (rev : revision) (body : object) :
  fieldErrors rev body =
  long ← messageTooLong body;
  Normal (failedReasons (isBlank (body !! "name")) (isBlank (body !! "email"))
            (isBlank (body !! "subject")) (isBlank (body !! "message"))
            (negb (consentGiven rev (body !! "privacyConsent"))) long).
Proof.
  unfold fieldErrors, failedReasons, pushIf.
  destruct (messageTooLong body) as [long|e]; [|reflexivity]. cbn.
  destruct (isBlank (body !! "name")), (isBlank (body !! "email")),
    (isBlank (body !! "subject")), (isBlank (body !! "message")),
    (negb (consentGiven rev (body !! "privacyConsent"))), long; reflexivity.
Qed.

(** On the path of the field checks the validator returns the summary of the
    failed checks whenever the length comparison returns. *)
Lemma validateContactBody_fields (rev : revision) (body : object) (long : bool) :
  honeypotFilled body = Normal false →
  messageTooLong body = Normal long →
  validateContactBody rev body =
  Normal (summary (failedReasons (isBlank (body !! "name")) (isBlank (body !! "email"))
                     (isBlank (body !! "subject")) (isBlank (body !! "message"))
                     (negb (consentGiven rev (body !! "privacyConsent"))) long)).
Proof.
  intros Hh Hl. unfold validateContactBody. rewrite Hh. cbn.
  rewrite fieldErrors_failedReasons, Hl. reflexivity.
Qed.

Lemma validateContactBody_spam (rev : revision) (body : object) :
  honeypotFilled body = Normal true →
  validateContactBody rev body =
  Normal {| valid := false; errors := ErrArray ["Spam detected"] |}.
Proof. intros Hh. unfold validateContactBody. now rewrite Hh. Qed.

(** A result comes from one of the two paths. *)
Lemma validateContactBody_inv (rev : revision) (body : object) (r : ValidationResult) :
  validateContactBody rev body = Normal r →
  (honeypotFilled body = Normal true ∧
   r = {| valid := false; errors := ErrArray ["Spam detected"] |}) ∨
  (honeypotFilled body = Normal false ∧
   ∃ long, messageTooLong body = Normal long ∧
     r = summary (failedReasons (isBlank (body !! "name")) (isBlank (body !! "email"))
                    (isBlank (body !! "subject")) (isBlank (body !! "message"))
                    (negb (consentGiven rev (body !! "privacyConsent"))) long)).
Proof.
  intros Hr.
  destruct (honeypotFilled body) as [[|]|e] eqn:Hh.
  - left. split; [reflexivity|].
    rewrite (validateContactBody_spam rev body Hh) in Hr. congruence.
  - right. split; [reflexivity|].
    destruct (messageTooLong body) as [long|e] eqn:Hl.
    + exists long. split; [reflexivity|].
      rewrite (validateContactBody_fields rev body long Hh Hl) in Hr. congruence.
    + unfold validateContactBody in Hr. rewrite Hh in Hr. cbn in Hr.
      rewrite fieldErrors_failedReasons, Hl in Hr. discriminate.
  - unfold validateContactBody in Hr. rewrite Hh in Hr. discriminate.
Qed.

Lemma honeypotFilled_true (body : object) :
  honeypotFilled body = Normal true ↔
  ∃ s, body !! "honeypot" = Some (JStr s) ∧ trim s ≠ "".
Proof.
  split.
  - unfold honeypotFilled.
    destruct (truthy (body !! "honeypot")) eqn:Ht; [|discriminate].
    destruct (body !! "honeypot") as [[|b|f|s|items|o]|]; try discriminate.
    cbn. destruct (String.eqb (trim s) "") eqn:He; [discriminate|].
    intros _. exists s. split; [reflexivity|]. now apply String.eqb_neq.
  - intros (s & Hs & Ht). now apply (honeypotFilled_string body s).
Qed.

(** A honeypot that is truthy and not a string makes the validator throw. *)
Lemma honeypot_not_string_throws (rev : revision) (body : object) :
  truthy (body !! "honeypot") = true →
  isString (body !! "honeypot") = false →
  validateContactBody rev body = Throw TypeError.
Proof.
  intros Ht Hs. unfold validateContactBody, honeypotFilled. rewrite Ht.
  destruct (body !! "honeypot") as [[|b|f|s|items|o]|]; try discriminate; reflexivity.
Qed.

(** X25: the validator returns exactly on the bodies whose honeypot is a filled
    string, and on those that pass the honeypot check and whose length
    comparison returns; on every other body it throws. *)
Lemma validateContactBody_returns (rev : revision) (body : object) :
  (∃ r, validateContactBody rev body = Normal r) ↔
  (∃ s, body !! "honeypot" = Some (JStr s) ∧ trim s ≠ "") ∨
  (honeypotEmpty body ∧ lengthComparable body).
Proof.
  rewrite <- honeypotFilled_true, honeypotFilled_empty, messageTooLong_comparable.
  split.
  - intros [r Hr].
    apply validateContactBody_inv in Hr as [[Hh _] | (Hh & long & Hl & _)]; eauto.
  - intros [Hh | [Hh [long Hl]]].
    + eexists. apply (validateContactBody_spam rev body Hh).
    + eexists. apply (validateContactBody_fields rev body long Hh Hl).
Qed.

End ValidatorFacts.

(** What a summary of failed checks reports: each reason exactly when its
    check failed. *)
Lemma reports_failedReasons (n e s m c l : bool) :
  let r := summary (failedReasons n e s m c l) in
  reports r "Name is required" = n ∧ reports r "Email is required" = e ∧
  reports r "Subject is required" = s ∧ reports r "Message is required" = m ∧
  reports r "Privacy consent is required" = c ∧ reports r "Message must be 5000 characters or less" = l.
Proof. destruct n, e, s, m, c, l; vm_compute; repeat split. Qed.

(** Reads off, for the summary in the goal, what it reports for each of the
    six reasons. *)
Ltac read_reports :=
  match goal with
  | |- context [summary (failedReasons ?n ?e ?s ?m ?c ?l)] =>
      destruct (reports_failedReasons n e s m c l)
        as (Hname & Hemail & Hsubject & Hmessage & Hconsent & Hlength)
  end.

Lemma reports_spam (reason : string) :
  reports {| valid := false; errors := ErrArray ["Spam detected"] |} reason =
  String.eqb reason "Spam detected".
Proof. unfold reports. cbn. apply orb_false_r. Qed.

(** A summary is valid exactly when no check failed, and it is then the
    result with [errors: null]. *)
Lemma summary_valid (n e s m c l : bool) :
  valid (summary (failedReasons n e s m c l)) = negb (n || e || s || m || c || l).
Proof. destruct n, e, s, m, c, l; reflexivity. Qed.

(** Lower-casing hits a letter of "true" exactly from its two cases. *)
Lemma lowerUnit_true_letters (c : ascii) :
  Ascii.eqb (lowerUnit c) "t" = sameLetter c "t" ∧
  Ascii.eqb (lowerUnit c) "r" = sameLetter c "r" ∧
  Ascii.eqb (lowerUnit c) "u" = sameLetter c "u" ∧
  Ascii.eqb (lowerUnit c) "e" = sameLetter c "e".
Proof.
  destruct c as [[] [] [] [] [] [] [] []]; vm_compute; repeat split.
Qed.

Lemma toLowerCase_true (s : string) :
  String.eqb (toLowerCase s) "true" = equalsIgnoreCase s "true".
Proof.
  destruct s as [|c1 [|c2 [|c3 [|c4 [|c5 s]]]]]; try reflexivity; cbn.
  all: repeat match goal with
       | |- context [Ascii.eqb (lowerUnit ?c) ?l] =>
           let H := fresh in
           assert (H : Ascii.eqb (lowerUnit c) l = sameLetter c l)
             by apply (lowerUnit_true_letters c);
           rewrite H; clear H
       end.
  all: repeat match goal with
       | |- context [sameLetter ?c ?l] => destruct (sameLetter c l); cbn
       end; reflexivity.
Qed.

(** [toBoolean] accepts what the specification accepts. *)
Lemma toBoolean_consentAccepted (x : option value) :
  toBoolean x = consentAccepted x.
Proof.
  destruct x as [[]|]; try reflexivity. cbn. apply toLowerCase_true.
Qed.

Section ValidatorClaims.
Context {conv : NumberConversions}.

Lemma consentGiven_accepts (rev : revision) (x : option value) :
  consentGiven rev x = true ↔ acceptsConsent rev x.
Proof.
  destruct rev; cbn.
  - destruct x as [[| [] | | | |]|]; cbn; split; congruence.
  - now rewrite toBoolean_consentAccepted.
Qed.

Lemma messageTooLong_string (body : object) (s : string) :
  body !! "message" = Some (JStr s) →
  messageTooLong body = Normal (5000 <? Z.of_nat (String.length s))%Z.
Proof.
  intros Hm. unfold messageTooLong. rewrite Hm.
  destruct s; reflexivity.
Qed.

Lemma oversizedBlankMessage_iff (body : object) :
  oversizedBlankMessage body ↔
  isBlank (body !! "message") = true ∧ messageTooLong body = Normal true.
Proof.
  unfold oversizedBlankMessage, messageTooLong, isBlank.
  destruct (body !! "message") as [[|b|f|s|items|o]|]; cbn.
  - split; [tauto | intros [_ ?]; discriminate].
  - split; [tauto | intros [_ H]; destruct b; discriminate].
  - split; [tauto | intros [_ H]; destruct (negb _); discriminate].
  - rewrite orb_false_r. split.
    + intros [Ht Hl]. apply Z.ltb_lt in Hl. rewrite Ht.
      destruct s; [discriminate|]. cbn in *. now rewrite Hl.
    + intros [Hb Hl]. destruct s; [discriminate|]. cbn in *.
      split.
      * now apply String.eqb_eq.
      * apply Z.ltb_lt. congruence.
  - split.
    + intros H. apply Z.ltb_lt in H. now rewrite H.
    + intros [_ H]. apply Z.ltb_lt. congruence.
  - tauto.
  - split; [tauto | intros [_ ?]; discriminate].
Qed.

(** C1 (corrected): when the honeypot check lets the body through and the
    length comparison returns, the validator returns a result, and that result
    reports no "Privacy consent is required" exactly when [privacyConsent] is
    accepted: in the second file, boolean true or a string equal to "true"
    case-insensitively; in [index.mjs], boolean true alone. *)
Theorem consent_reason_reported (rev : revision) (body : object) :
  honeypotEmpty body →
  lengthComparable body →
  ∃ r, validateContactBody rev body = Normal r ∧
       (reports r "Privacy consent is required" = false ↔
        acceptsConsent rev (body !! "privacyConsent")).
Proof.
  intros Hh Hl.
  apply honeypotFilled_empty in Hh.
  apply messageTooLong_comparable in Hl as [long Hl].
  eexists. split; [apply (validateContactBody_fields rev body long Hh Hl)|].
  read_reports. rewrite Hconsent.
  rewrite <- consentGiven_accepts.
  destruct (consentGiven rev (body !! "privacyConsent")); cbn; split; congruence.
Qed.

(** C2 (corrected): a honeypot that is a string and not empty after trimming
    makes the validator return at once, whatever the other fields hold, the
    invalid result whose [errors] is the array with the single reason
    "Spam detected" (capital S). *)
Theorem honeypot_short_circuit (rev : revision) (body : object) (s : string) :
  body !! "honeypot" = Some (JStr s) →
  trim s ≠ "" →
  validateContactBody rev body =
  Normal {| valid := false; errors := ErrArray ["Spam detected"] |}.
Proof.
  intros Hs Ht. apply validateContactBody_spam.
  now apply (honeypotFilled_string body s).
Qed.

(** C3 (code bug): on the body [{"honeypot": 1}] the validator throws a
    TypeError instead of returning a result: [body.honeypot] is truthy and
    [body.honeypot.trim] is not a function. *)
Theorem honeypot_number_throws (rev : revision) :
  validateContactBody rev {[ "honeypot" := JNum 1%float ]} = Throw TypeError.
Proof. destruct rev; reflexivity. Qed.

(** C6 (corrected): for a message that is a string, on the path of the field
    checks the validator returns a result that reports "Message must be 5000
    characters or less" exactly when the string is longer than 5000 code units
    (not at 5000, at 5001 and above); and no result of the validator, on either
    path, reports it for a string of at most 5000. *)
Theorem length_reason_boundary (rev : revision) (body : object) (s : string) :
  body !! "message" = Some (JStr s) →
  (honeypotEmpty body →
   ∃ r, validateContactBody rev body = Normal r ∧
        reports r "Message must be 5000 characters or less" =
        (5000 <? Z.of_nat (String.length s))%Z) ∧
  ((Z.of_nat (String.length s) <= 5000)%Z →
   ∀ r, validateContactBody rev body = Normal r →
        reports r "Message must be 5000 characters or less" = false).
Proof.
  intros Hm. pose proof (messageTooLong_string body s Hm) as Hl. split.
  - intros Hh. apply honeypotFilled_empty in Hh.
    eexists. split; [apply (validateContactBody_fields rev body _ Hh Hl)|].
    read_reports. exact Hlength.
  - intros Hle r Hr.
    apply validateContactBody_inv in Hr as [[_ ->] | (_ & long & Hl' & ->)].
    + reflexivity.
    + rewrite Hl in Hl'. injection Hl' as <-.
      read_reports. rewrite Hlength. apply Z.ltb_ge. exact Hle.
Qed.

(** X24: the reasons of the failed checks, joined with a comma and a space in
    the fixed order name, email, subject, message, consent, length: what the
    validator returns on the path of the field checks when the length
    comparison returns. *)
Lemma failed_reasons_joined (rev : revision) (body : object) :
  honeypotEmpty body →
  lengthComparable body →
  ∃ long, messageTooLong body = Normal long ∧
    let failed :=
      failedReasons (isBlank (body !! "name")) (isBlank (body !! "email"))
        (isBlank (body !! "subject")) (isBlank (body !! "message"))
        (negb (consentGiven rev (body !! "privacyConsent"))) long in
    validateContactBody rev body = Normal (summary failed) ∧
    (failed ≠ [] →
     summary failed = {| valid := false; errors := ErrJoined (join ", " failed) |}) ∧
    (failed = [] →
     summary failed = {| valid := true; errors := ErrNull |}) ∧
    (isBlank (body !! "name") = true → reports (summary failed) "Name is required" = true) ∧
    (isBlank (body !! "email") = true → reports (summary failed) "Email is required" = true) ∧
    (isBlank (body !! "subject") = true → reports (summary failed) "Subject is required" = true) ∧
    (isBlank (body !! "message") = true → reports (summary failed) "Message is required" = true).
Proof.
  intros Hh Hl.
  apply honeypotFilled_empty in Hh.
  apply messageTooLong_comparable in Hl as [long Hl].
  exists long. split; [exact Hl|]. cbn zeta.
  split; [apply (validateContactBody_fields rev body long Hh Hl)|].
  read_reports. rewrite Hname, Hemail, Hsubject, Hmessage.
  clear Hname Hemail Hsubject Hmessage Hconsent Hlength.
  match goal with
  | |- context [failedReasons ?n ?e ?s ?m ?c ?l] =>
      generalize (failedReasons n e s m c l)
  end.
  intros failed. repeat split; try tauto.
  - intros Hne. destruct failed; [congruence | reflexivity].
  - intros ->. reflexivity.
Qed.

(** C7 (code bug): on a body with no honeypot whose message is the object
    [{"length": {"toString": 0}}] the validator throws a TypeError at the
    length comparison, after the presence checks have pushed their reasons:
    there is no joined error string. *)
Theorem length_comparison_throws (rev : revision) :
  validateContactBody rev
    {[ "message" := JObj {[ "length" := JObj {[ "toString" := JNum 0%float ]} ]} ]}
  = Throw TypeError.
Proof. destruct rev; reflexivity. Qed.

(** C8 (corrected): a result of the validator reports both "Message is
    required" and "Message must be 5000 characters or less" exactly when the
    honeypot check let the body through and the message fails the presence
    check while exceeding the bound: a string longer than 5000 that is empty
    after trimming, an array of more than 5000 elements, or an object whose
    [length] compares greater than 5000. *)
Theorem message_reasons_together (rev : revision) (body : object) (r : ValidationResult) :
  validateContactBody rev body = Normal r →
  (reports r "Message is required" = true ∧
   reports r "Message must be 5000 characters or less" = true) ↔
  (honeypotEmpty body ∧ oversizedBlankMessage body).
Proof.
  intros Hr. rewrite oversizedBlankMessage_iff, honeypotFilled_empty.
  apply validateContactBody_inv in Hr as [[Hh ->] | (Hh & long & Hl & ->)].
  - split; [intros [H _]; discriminate | intros [H _]; congruence].
  - read_reports. rewrite Hmessage, Hlength, Hl. split.
    + intros [-> ->]. auto.
    + intros (_ & -> & Hlong). split; congruence.
Qed.

(** For a message that is a string with a character that trimming keeps, or
    of at most 5000 code units, the two reasons exclude each other. *)
Lemma message_reasons_exclusive (rev : revision) (body : object) (s : string)
    (r : ValidationResult) :
  body !! "message" = Some (JStr s) →
  trim s ≠ "" ∨ (Z.of_nat (String.length s) <= 5000)%Z →
  validateContactBody rev body = Normal r →
  reports r "Message is required" && reports r "Message must be 5000 characters or less"
  = false.
Proof.
  intros Hm Hs Hr.
  apply validateContactBody_inv in Hr as [[_ ->] | (_ & long & Hl & ->)];
    [reflexivity|].
  rewrite (messageTooLong_string body s Hm) in Hl. injection Hl as <-.
  read_reports. rewrite Hmessage, Hlength, Hm.
  destruct Hs as [Hs | Hs].
  - assert (Hblank : isBlank (Some (JStr s)) = false).
    { unfold isBlank. destruct s as [|c s']; [exfalso; now apply Hs|].
      cbn [truthy isString String.eqb negb orb]. now apply String.eqb_neq. }
    now rewrite Hblank.
  - apply Z.ltb_ge in Hs. rewrite Hs. apply andb_false_r.
Qed.

(** C10: two bodies that agree on honeypot, name, email, subject, message and
    privacyConsent get the same outcome from the validator, whatever company,
    phone, whatsappConsent, userAgent, language, timestamp or any other member
    hold. *)
Theorem validation_reads_six_fields (rev : revision) (b1 b2 : object) :
  (∀ k, In k validatedFields → b1 !! k = b2 !! k) →
  validateContactBody rev b1 = validateContactBody rev b2.
Proof.
  intros H.
  unfold validateContactBody, honeypotFilled, fieldErrors, messageTooLong.
  rewrite (H "honeypot"), (H "name"), (H "email"), (H "subject"),
    (H "message"), (H "privacyConsent");
    [reflexivity | cbn; tauto ..].
Qed.

End ValidatorClaims.

(** ** Lemmas on the handler *)

Lemma js_or_null (a : option value) :
  ∃ v, js_or a (Some JNull) = Some v ∧ (truthy a = false → v = JNull).
Proof.
  unfold js_or. destruct (truthy a) eqn:Ht.
  - destruct a as [v|]; [|discriminate]. exists v. split; [reflexivity | discriminate].
  - exists JNull. split; reflexivity.
Qed.

Lemma trimOrNull_Normal (x : option value) (r : option value) :
  trimOrNull x = Normal r →
  ∃ v, r = Some v ∧ (truthy x = false → v = JNull).
Proof.
  unfold trimOrNull. destruct (truthy x) eqn:Ht.
  - destruct (callTrim x) as [t|e]; cbn; [|discriminate].
    intros [= <-]. eexists. split; [reflexivity | discriminate].
  - intros [= <-]. exists JNull. split; reflexivity.
Qed.

Lemma userAgent_value (a : option value) (header : option string) :
  ∃ v, js_or a (js_or (JStr <$> header) (Some JNull)) = Some v ∧
       (truthy a = false → present header = false → v = JNull).
Proof.
  unfold js_or at 1. destruct (truthy a) eqn:Ht.
  - destruct a as [v|]; [|discriminate]. exists v. split; [reflexivity | discriminate].
  - destruct (js_or_null (JStr <$> header)) as (v & Hv & Hnull).
    exists v. split; [exact Hv|]. intros _ Hp. apply Hnull.
    destruct header; exact Hp.
Qed.

Lemma js_or_truthy (a b : option value) :
  truthy a = true → js_or a b = a.
Proof. intros Ht. unfold js_or. now rewrite Ht. Qed.

Lemma js_or_falsy (a b : option value) :
  truthy a = false → js_or a b = b.
Proof. intros Ht. unfold js_or. now rewrite Ht. Qed.

Lemma trimOrNull_truthy (x : option value) (v : value) :
  trimOrNull x = Normal (Some v) →
  truthy x = true →
  ∃ c, x = Some (JStr c) ∧ v = JStr (trim c).
Proof.
  unfold trimOrNull. intros H Ht. rewrite Ht in H.
  destruct x as [[|?|?|c|?|?]|]; try discriminate.
  cbn in H. injection H as <-. now exists c.
Qed.

(** What [x ? x.trim() : null] yields is a string or [null], which
    [JSON.stringify] writes as it is. *)
Lemma trimOrNull_written (x : option value) (v : value) :
  trimOrNull x = Normal (Some v) → JSON_value v = v.
Proof.
  unfold trimOrNull. destruct (truthy x).
  - destruct (callTrim x) as [t|e]; cbn; [|discriminate]. now intros [= <-].
  - now intros [= <-].
Qed.

(** The members that [JSON.stringify(payload)] writes, when building the
    payload does not throw, each with the expression of the source that gives
    its value: no member is [undefined], so none is left out. *)
Lemma payload_sent (rev : revision) (w : World) (req : Request)
    (p : list (string * option value)) :
  payload rev w req = Normal p →
  let body := req_body req in
  ∃ n e s m company phone userAgent language timestamp,
    body !! "name" = Some (JStr n) ∧ body !! "email" = Some (JStr e) ∧
    body !! "subject" = Some (JStr s) ∧ body !! "message" = Some (JStr m) ∧
    trimOrNull (body !! "company") = Normal (Some company) ∧
    trimOrNull (body !! "phone") = Normal (Some phone) ∧
    js_or (body !! "userAgent")
      (js_or (JStr <$> req_headers req !! "user-agent") (Some JNull)) = Some userAgent ∧
    js_or (body !! "language") (Some JNull) = Some language ∧
    js_or (body !! "timestamp") (Some JNull) = Some timestamp ∧
    JSON_stringify p =
    ([("name", JStr (trim n)); ("email", JStr (trim e)); ("subject", JStr (trim s));
      ("message", JStr (trim m)); ("company", company); ("phone", phone)]
     ++ match rev with
        | Index_mjs => []
        | Part_000 =>
            [("whatsappConsent", JBool (toBoolean (body !! "whatsappConsent")));
             ("privacyConsent", JBool (toBoolean (body !! "privacyConsent")))]
        end
     ++ [("ip", JStr (getClientIp req)); ("userAgent", JSON_value userAgent);
         ("language", JSON_value language)]
     ++ match rev with
        | Index_mjs => []
        | Part_000 => [("timestamp", JSON_value timestamp)]
        end
     ++ [("createdAt", JStr (toISOString_now w))])%list.
Proof.
  unfold payload. intros Hp. cbn zeta.
  destruct (req_body req !! "name") as [[|?|?|n|?|?]|]; try discriminate.
  destruct (req_body req !! "email") as [[|?|?|e|?|?]|]; try discriminate.
  destruct (req_body req !! "subject") as [[|?|?|s|?|?]|]; try discriminate.
  destruct (req_body req !! "message") as [[|?|?|m|?|?]|]; try discriminate.
  cbn [callTrim mbind completion_bind] in Hp.
  destruct (trimOrNull (req_body req !! "company")) as [company|] eqn:Hc; [|discriminate].
  destruct (trimOrNull (req_body req !! "phone")) as [phone|] eqn:Hph; [|discriminate].
  cbn in Hp. injection Hp as <-.
  destruct (trimOrNull_Normal _ _ Hc) as (vc & -> & _).
  destruct (trimOrNull_Normal _ _ Hph) as (vp & -> & _).
  pose proof (trimOrNull_written _ _ Hc) as Hwc.
  pose proof (trimOrNull_written _ _ Hph) as Hwp.
  destruct (userAgent_value (req_body req !! "userAgent") (req_headers req !! "user-agent"))
    as (ua & Hua & _).
  destruct (js_or_null (req_body req !! "language")) as (lang & Hlang & _).
  destruct (js_or_null (req_body req !! "timestamp")) as (ts & Hts & _).
  exists n, e, s, m, vc, vp, ua, lang, ts.
  repeat (split; [first [reflexivity | assumption]|]).
  rewrite Hua, Hlang. destruct rev; cbn.
  - now rewrite Hwc, Hwp.
  - now rewrite Hts, Hwc, Hwp.
Qed.

Section HandlerFacts.
Context {conv : NumberConversions}.

(** The handler calls [fetch] only with a payload it built for a body the
    validator found valid, and with the token the signer returned. *)
Lemma contactHandler_fetch (rev : revision) (w : World) (req : Request)
    (jwt : string) (sent : list (string * value)) :
  In (Fetch jwt sent) (snd (contactHandler rev w req)) →
  ∃ r p, validateContactBody rev (req_body req) = Normal r ∧ valid r = true ∧
         payload rev w req = Normal p ∧ signJWT w = Normal jwt ∧
         sent = JSON_stringify p ∧
         contactHandler rev w req =
         match downstream w jwt sent with
         | FetchRejected message =>
             (n8nError, [Validate (req_body req); Fetch jwt sent;
                         ConsoleError (LogForwardError message)])
         | FetchResponse st text =>
             if responseOk st
             then (okResponse, [Validate (req_body req); Fetch jwt sent])
             else (n8nError, ([Validate (req_body req); Fetch jwt sent]
                                ++ rejectionLog rev st text)%list)
         end.
Proof.
  unfold contactHandler.
  destruct (validateContactBody rev (req_body req)) as [r|e].
  2: { cbn. intros [H|[H|[]]]; discriminate. }
  destruct (valid r) eqn:Hv; cbn [negb].
  2: { cbn. intros [H|[]]; discriminate. }
  destruct (payload rev w req) as [p|e].
  2: { cbn. intros [H|[H|[]]]; discriminate. }
  destruct (signJWT w) as [jwt0|e].
  2: { cbn. intros [H|[H|[]]]; discriminate. }
  cbn zeta. intros Hin.
  assert (Heq : jwt = jwt0 ∧ sent = JSON_stringify p).
  { destruct (downstream w jwt0 (JSON_stringify p)) as [message|st text].
    - cbn in Hin. destruct Hin as [H|[H|[H|[]]]]; try discriminate.
      injection H as <- <-. auto.
    - destruct (responseOk st).
      + cbn in Hin. destruct Hin as [H|[H|[]]]; try discriminate.
        injection H as <- <-. auto.
      + cbn in Hin. destruct Hin as [H|[H|H]]; try discriminate.
        * injection H as <- <-. auto.
        * destruct rev; cbn in H;
            repeat (destruct H as [H|H]; [discriminate|]); destruct H. }
  destruct Heq as [-> ->].
  exists r, p. split; [reflexivity|]. split; [exact Hv|].
  repeat (split; [reflexivity|]).
  destruct (downstream w jwt0 (JSON_stringify p)) as [message|st text];
    [reflexivity|].
  destruct (responseOk st); reflexivity.
Qed.

(** C4 (corrected): whenever the handler forwards a submission, the members
    it sends include company, phone, userAgent and language in both files, and
    timestamp and whatsappConsent in the second file only ([index.mjs] sends
    neither).  company, phone, language and timestamp are null when the body
    gives no truthy value for them (the member is absent, or null, false, zero
    or the empty string); a truthy company or phone is sent as that string
    trimmed, and a truthy language or timestamp as [JSON.stringify] writes it.
    userAgent is the body's value, as [JSON.stringify] writes it, when that is
    truthy; otherwise it is the User-Agent header when the request has a
    non-empty one; it is null when neither gives one. *)
Theorem forwarded_optional_members (rev : revision) (w : World) (req : Request)
    (jwt : string) (sent : list (string * value)) :
  In (Fetch jwt sent) (snd (contactHandler rev w req)) →
  let body := req_body req in
  (∀ k, In k ["company"; "phone"; "userAgent"; "language"] → is_Some (member k sent)) ∧
  (truthy (body !! "company") = false → member "company" sent = Some JNull) ∧
  (truthy (body !! "phone") = false → member "phone" sent = Some JNull) ∧
  (truthy (body !! "language") = false → member "language" sent = Some JNull) ∧
  (truthy (body !! "userAgent") = false →
   present (req_headers req !! "user-agent") = false →
   member "userAgent" sent = Some JNull) ∧
  match rev with
  | Part_000 =>
      is_Some (member "timestamp" sent) ∧ is_Some (member "whatsappConsent" sent) ∧
      (truthy (body !! "timestamp") = false → member "timestamp" sent = Some JNull) ∧
      (truthy (body !! "timestamp") = true →
       member "timestamp" sent = JSON_value <$> body !! "timestamp")
  | Index_mjs =>
      member "timestamp" sent = None ∧ member "whatsappConsent" sent = None
  end ∧
  (truthy (body !! "userAgent") = false →
   ∀ header, req_headers req !! "user-agent" = Some header → header ≠ "" →
   member "userAgent" sent = Some (JStr header)) ∧
  (truthy (body !! "userAgent") = true →
   member "userAgent" sent = JSON_value <$> body !! "userAgent") ∧
  (truthy (body !! "language") = true →
   member "language" sent = JSON_value <$> body !! "language") ∧
  (∀ k, k = "company" ∨ k = "phone" → truthy (body !! k) = true →
   ∃ c, body !! k = Some (JStr c) ∧ member k sent = Some (JStr (trim c))).
Proof.
  intros Hin.
  apply contactHandler_fetch in Hin as (r & p & _ & _ & Hp & _ & -> & _).
  apply payload_sent in Hp
    as (n & e & s & m & company & phone & ua & lang & ts &
        _ & _ & _ & _ & Hc & Hph & Hua & Hlang & Hts & ->).
  cbn zeta.
  split.
  { intros k Hk. cbn in Hk.
    destruct Hk as [<-|[<-|[<-|[<-|[]]]]]; destruct rev; cbn; eauto. }
  split.
  { intros H. destruct (trimOrNull_Normal _ _ Hc) as (v & [= <-] & Hv).
    rewrite (Hv H). destruct rev; reflexivity. }
  split.
  { intros H. destruct (trimOrNull_Normal _ _ Hph) as (v & [= <-] & Hv).
    rewrite (Hv H). destruct rev; reflexivity. }
  split.
  { intros H. rewrite (js_or_falsy _ _ H) in Hlang. injection Hlang as <-.
    destruct rev; reflexivity. }
  split.
  { intros H1 H2. rewrite (js_or_falsy _ _ H1) in Hua.
    rewrite js_or_falsy in Hua by (destruct (req_headers req !! "user-agent"); exact H2).
    injection Hua as <-. destruct rev; reflexivity. }
  split.
  { destruct rev; cbn.
    - split; reflexivity.
    - split; [eauto|]. split; [eauto|]. split.
      + intros H. rewrite (js_or_falsy _ _ H) in Hts. now injection Hts as <-.
      + intros H. rewrite (js_or_truthy _ _ H) in Hts. now rewrite Hts. }
  split.
  { intros H header Hh Hne. rewrite (js_or_falsy _ _ H), Hh in Hua.
    rewrite js_or_truthy in Hua by (cbn; now apply negb_true_iff, String.eqb_neq).
    injection Hua as <-. destruct rev; reflexivity. }
  split.
  { intros H. rewrite (js_or_truthy _ _ H) in Hua. rewrite Hua.
    destruct rev; reflexivity. }
  split.
  { intros H. rewrite (js_or_truthy _ _ H) in Hlang. rewrite Hlang.
    destruct rev; reflexivity. }
  intros k [-> | ->] Ht.
  - destruct (trimOrNull_truthy _ _ Hc Ht) as (c & Hbody & ->).
    exists c. split; [exact Hbody|]. destruct rev; reflexivity.
  - destruct (trimOrNull_truthy _ _ Hph Ht) as (c & Hbody & ->).
    exists c. split; [exact Hbody|]. destruct rev; reflexivity.
Qed.

(** C9: whenever the handler has forwarded a submission and the forward
    failed (the request was rejected, or the downstream answered with a status
    outside 200-299, whatever its body), the answer is status 500 with the
    members [ok: false] and [error: "n8n error"], and nothing else. *)
Theorem forward_failure_answer (rev : revision) (w : World) (req : Request)
    (jwt : string) (sent : list (string * value)) :
  In (Fetch jwt sent) (snd (contactHandler rev w req)) →
  forwardFailed (downstream w jwt sent) →
  fst (contactHandler rev w req) =
  {| status := 500; json := [("ok", JBool false); ("error", JStr "n8n error")] |}.
Proof.
  intros Hin Hfail.
  apply contactHandler_fetch in Hin as (r & p & _ & _ & _ & _ & _ & ->).
  destruct (downstream w jwt sent) as [message|st text]; [reflexivity|].
  cbn in Hfail. rewrite Hfail. reflexivity.
Qed.

(** The handler calls the validator first, on every path. *)
Lemma contactHandler_validates (rev : revision) (w : World) (req : Request) :
  ∃ rest, snd (contactHandler rev w req) = Validate (req_body req) :: rest.
Proof.
  unfold contactHandler.
  destruct (validateContactBody rev (req_body req)) as [r|e]; [|cbn; eauto].
  destruct (negb (valid r)); [cbn; eauto|].
  destruct (payload rev w req) as [p|e]; [|cbn; eauto].
  destruct (signJWT w) as [jwt|e]; [|cbn; eauto].
  cbn zeta.
  destruct (downstream w jwt (JSON_stringify p)) as [m|st text]; [cbn; eauto|].
  destruct (responseOk st); cbn; eauto.
Qed.

End HandlerFacts.

(** ** Lemmas on admission *)

Lemma increment_same (st : gmap string Window) (key : string) (t0 t : Z) (n : nat) :
  countedSince st key t0 n →
  (t0 <= t < t0 + contactRateLimiter.windowMs)%Z →
  snd (increment key t st) = S n ∧
  countedSince (fst (increment key t st)) key t0 (S n).
Proof.
  intros Hc Ht. unfold increment. destruct n as [|n]; cbn in Hc.
  - unfold noOpenWindow in Hc. destruct (st !! key) as [w|] eqn:Hw.
    + assert (Hlapsed : (t <? resetTime w)%Z = false) by (apply Z.ltb_ge; lia).
      rewrite Hlapsed. cbn. split; [reflexivity|].
      eexists. rewrite lookup_insert_eq. split; [reflexivity|]. cbn. split; [reflexivity | lia].
    + cbn. split; [reflexivity|].
      eexists. rewrite lookup_insert_eq. split; [reflexivity|]. cbn. split; [reflexivity | lia].
  - destruct Hc as (w & Hw & Hh & Hr). rewrite Hw.
    assert (Hopen : (t <? resetTime w)%Z = true) by (apply Z.ltb_lt; lia).
    rewrite Hopen. cbn. split; [congruence|].
    eexists. rewrite lookup_insert_eq. split; [reflexivity|]. cbn. split; [congruence | lia].
Qed.

Lemma increment_other (st : gmap string Window) (key key' : string) (t0 t : Z) (n : nat) :
  key' ≠ key →
  countedSince st key t0 n →
  countedSince (fst (increment key' t st)) key t0 n.
Proof.
  intros Hne Hc.
  assert (Hlookup : fst (increment key' t st) !! key = st !! key).
  { unfold increment. destruct (st !! key') as [w|]; [destruct (t <? resetTime w)%Z|];
      cbn; now rewrite lookup_insert_ne. }
  destruct n as [|n]; cbn in *.
  - unfold noOpenWindow in *. now rewrite Hlookup.
  - now rewrite Hlookup.
Qed.

Section RouteFacts.
Context {conv : NumberConversions}.

Lemma serve_lookup (rev : revision) (keyOf : Request -> string) (key : string) (t0 : Z)
    (arrivals : list Arrival) :
  ∀ (st : gmap string Window) (n i : nat) (a : Arrival),
  countedSince st key t0 n →
  (∀ b, In b arrivals → keyOf (request b) = key →
        (t0 <= arrives b < t0 + contactRateLimiter.windowMs)%Z) →
  arrivals !! i = Some a →
  keyOf (request a) = key →
  serve rev keyOf st arrivals !! i =
  Some (if n + length (arrivalsOf keyOf key (take i arrivals)) <? contactRateLimiter.max
        then contactHandler rev (world a) (request a)
        else (contactRateLimiter.handler, [])).
Proof.
  induction arrivals as [|b rest IH]; intros st n i a Hc Hw Hi Hk; [discriminate|].
  destruct i as [|i].
  - injection Hi as ->. cbn. unfold contactRoute.
    destruct (increment_same st key t0 (arrives a) n Hc) as [Hn _].
    { apply Hw; [now left | exact Hk]. }
    rewrite Hk, Hn. rewrite Nat.add_0_r.
    change (S n <=? contactRateLimiter.max) with (n <=? 2).
    destruct (n <=? 2); reflexivity.
  - cbn in Hi. cbn [serve lookup list_lookup take arrivalsOf].
    unfold arrivalsOf in *.
    assert (Hrest : ∀ b', In b' rest → keyOf (request b') = key →
              (t0 <= arrives b' < t0 + contactRateLimiter.windowMs)%Z).
    { intros b' Hb'. apply Hw. now right. }
    assert (Hfst : fst (contactRoute rev keyOf st b) =
                   fst (increment (keyOf (request b)) (arrives b) st)).
    { unfold contactRoute. now destruct (_ <=? _). }
    destruct (decide (keyOf (request b) = key)) as [Hb|Hb].
    + rewrite filter_cons_True by exact Hb. cbn [length].
      destruct (increment_same st key t0 (arrives b) n Hc) as [_ Hc'].
      { apply Hw; [now left | exact Hb]. }
      rewrite <- Hb in Hc' at 1.
      rewrite <- Hfst in Hc'.
      rewrite Nat.add_succ_r.
      exact (IH _ (S n) i a Hc' Hrest Hi Hk).
    + rewrite filter_cons_False by exact Hb.
      pose proof (increment_other st key _ t0 (arrives b) n Hb Hc) as Hc'.
      rewrite <- Hfst in Hc'.
      exact (IH _ n i a Hc' Hrest Hi Hk).
Qed.

(** C5: when the arrivals of identity [key] all fall in one 60-second span
    at whose start [key] had no open window, whatever other identities do in
    between, an arrival of [key] is passed to the handler, which calls the
    validator, exactly when fewer than 3 arrivals of [key] precede it; the 4th
    and every later one is answered 429 with [ok: false] and "Too many
    requests, please try again later", and for it nothing is called, the
    validator included. *)
Theorem three_requests_per_window (rev : revision) (keyOf : Request -> string)
    (st : gmap string Window) (key : string) (t0 : Z)
    (arrivals : list Arrival) (i : nat) (a : Arrival) :
  noOpenWindow st key t0 →
  (∀ b, In b arrivals → keyOf (request b) = key →
        (t0 <= arrives b < t0 + 60000)%Z) →
  arrivals !! i = Some a →
  keyOf (request a) = key →
  let earlier := length (arrivalsOf keyOf key (take i arrivals)) in
  ∃ answer, serve rev keyOf st arrivals !! i = Some answer ∧
    (earlier < 3 →
     answer = contactHandler rev (world a) (request a) ∧
     In (Validate (req_body (request a))) (snd answer)) ∧
    (3 <= earlier →
     answer =
     ({| status := 429;
         json := [("ok", JBool false);
                  ("error", JStr "Too many requests, please try again later")] |},
      [])).
Proof.
  intros Hopen Hw Hi Hk earlier.
  pose proof (serve_lookup rev keyOf key t0 arrivals st 0 i a Hopen Hw Hi Hk) as Hs.
  cbn [Nat.add] in Hs. fold earlier in Hs.
  eexists. split; [exact Hs|]. split.
  - intros Hlt. apply Nat.ltb_lt in Hlt.
    change contactRateLimiter.max with 3. rewrite Hlt.
    split; [reflexivity|].
    destruct (contactHandler_validates rev (world a) (request a)) as [rest ->].
    now left.
  - intros Hge. apply Nat.ltb_ge in Hge.
    change contactRateLimiter.max with 3. rewrite Hge. reflexivity.
Qed.

End RouteFacts.

(** ** Further properties: strings *)

Lemma everyUnit_trimStart (P : ascii -> bool) (s : string) :
  everyUnit P s = true → everyUnit P (trimStart s) = true.
Proof.
  induction s as [|c s IH]; [reflexivity|]. cbn.
  intros H. apply andb_true_iff in H as [Hc Hs].
  destruct (isWhiteSpace c); [now apply IH|]. cbn. now rewrite Hc, Hs.
Qed.

Lemma everyUnit_trimEnd (P : ascii -> bool) (s : string) :
  everyUnit P s = true → everyUnit P (trimEnd s) = true.
Proof.
  induction s as [|c s IH]; [reflexivity|]. cbn.
  intros H. apply andb_true_iff in H as [Hc Hs]. specialize (IH Hs).
  destruct (trimEnd s) as [|d t].
  - destruct (isWhiteSpace c); [reflexivity|]. cbn. now rewrite Hc.
  - cbn in *. now rewrite Hc, IH.
Qed.

Lemma everyUnit_trim (P : ascii -> bool) (s : string) :
  everyUnit P s = true → everyUnit P (trim s) = true.
Proof. intros H. unfold trim. now apply everyUnit_trimEnd, everyUnit_trimStart. Qed.

Lemma trimStart_whitespace (s : string) :
  everyUnit isWhiteSpace (trimStart s) = everyUnit isWhiteSpace s.
Proof.
  induction s as [|c s IH]; [reflexivity|]. cbn.
  destruct (isWhiteSpace c) eqn:Hc; [exact IH|]. cbn. now rewrite Hc.
Qed.

Lemma trimEnd_empty (s : string) :
  String.eqb (trimEnd s) "" = everyUnit isWhiteSpace s.
Proof.
  induction s as [|c s IH]; [reflexivity|]. cbn.
  destruct (trimEnd s) as [|d t]; cbn in *.
  - rewrite <- IH. destruct (isWhiteSpace c); reflexivity.
  - rewrite <- IH. now rewrite andb_false_r.
Qed.

(** Trimming leaves nothing exactly of the strings of whitespace. *)
Lemma trim_empty (s : string) :
  String.eqb (trim s) "" = everyUnit isWhiteSpace s.
Proof. unfold trim. now rewrite trimEnd_empty, trimStart_whitespace. Qed.

Lemma trimStart_length (s : string) : String.length (trimStart s) <= String.length s.
Proof.
  induction s as [|c s IH]; [reflexivity|]. cbn.
  destruct (isWhiteSpace c); cbn; lia.
Qed.

Lemma trimEnd_length (s : string) : String.length (trimEnd s) <= String.length s.
Proof.
  induction s as [|c s IH]; [reflexivity|]. cbn.
  destruct (trimEnd s) as [|d t]; [destruct (isWhiteSpace c)|]; cbn in *; lia.
Qed.

Lemma trim_length (s : string) : String.length (trim s) <= String.length s.
Proof.
  unfold trim. etransitivity; [apply trimEnd_length | apply trimStart_length].
Qed.

Lemma trimEnd_idempotent (s : string) : trimEnd (trimEnd s) = trimEnd s.
Proof.
  induction s as [|c s IH]; [reflexivity|]. cbn.
  destruct (trimEnd s) as [|d t] eqn:Ht.
  - destruct (isWhiteSpace c) eqn:Hc; [reflexivity|]. cbn. now rewrite Hc.
  - change (trimEnd (String c (String d t))) with
      (match trimEnd (String d t) with
       | EmptyString => if isWhiteSpace c then EmptyString else String c EmptyString
       | t' => String c t'
       end).
    now rewrite IH.
Qed.

(** A string that does not start with whitespace keeps its first code unit
    under [trimEnd], so [trimStart] has nothing to strip afterwards. *)
Lemma trimStart_trimEnd (s : string) :
  trimStart s = s → trimStart (trimEnd s) = trimEnd s.
Proof.
  destruct s as [|c s]; [reflexivity|]. cbn.
  destruct (isWhiteSpace c) eqn:Hc.
  - intros H. exfalso. pose proof (trimStart_length s) as Hl.
    rewrite H in Hl. cbn in Hl. lia.
  - intros _. destruct (trimEnd s); cbn; now rewrite Hc.
Qed.

Lemma trimStart_idempotent (s : string) : trimStart (trimStart s) = trimStart s.
Proof.
  induction s as [|c s IH]; [reflexivity|]. cbn.
  destruct (isWhiteSpace c) eqn:Hc; [exact IH|]. cbn. now rewrite Hc.
Qed.

Lemma trim_idempotent (s : string) : trim (trim s) = trim s.
Proof.
  unfold trim.
  rewrite (trimStart_trimEnd (trimStart s)) by apply trimStart_idempotent.
  apply trimEnd_idempotent.
Qed.

Lemma firstSegment_notComma (s : string) : everyUnit notComma (firstSegment s) = true.
Proof.
  induction s as [|c s IH]; [reflexivity|]. cbn.
  destruct (Ascii.eqb c ",") eqn:Hc; [reflexivity|]. cbn.
  unfold notComma at 1. now rewrite Hc.
Qed.

(** ** Further properties: the validator *)

Lemma isBlank_string (s : string) :
  isBlank (Some (JStr s)) = everyUnit isWhiteSpace s.
Proof.
  unfold isBlank. cbn. rewrite trim_empty.
  destruct s as [|c s]; [reflexivity|]. cbn. reflexivity.
Qed.

Lemma isBlank_false_iff (x : option value) :
  isBlank x = false ↔ ∃ s, x = Some (JStr s) ∧ everyUnit isWhiteSpace s = false.
Proof.
  split.
  - destruct x as [[|b|f|s|items|o]|]; try (unfold isBlank; cbn; try destruct b;
      try destruct (negb _); discriminate).
    rewrite isBlank_string. intros H. now exists s.
  - intros (s & -> & H). now rewrite isBlank_string.
Qed.

(** X1: a required field passes its presence check exactly when it is a
    string with at least one code unit that is not whitespace; anything else
    (absent, null, a number, a boolean, an array, an object, the empty string,
    a string of spaces) is reported as missing. *)
Theorem required_field_present (x : option value) :
  isBlank x = false ↔ ∃ s, x = Some (JStr s) ∧ everyUnit isWhiteSpace s = false.
Proof. apply isBlank_false_iff. Qed.

Section ValidatorProperties.
Context {conv : NumberConversions}.

Lemma validateContactBody_valid (rev : revision) (body : object) (r : ValidationResult) :
  validateContactBody rev body = Normal r →
  valid r = true →
  honeypotFilled body = Normal false ∧ messageTooLong body = Normal false ∧
  isBlank (body !! "name") = false ∧ isBlank (body !! "email") = false ∧
  isBlank (body !! "subject") = false ∧ isBlank (body !! "message") = false ∧
  consentGiven rev (body !! "privacyConsent") = true ∧
  r = {| valid := true; errors := ErrNull |}.
Proof.
  intros Hr Hv.
  apply validateContactBody_inv in Hr as [[_ ->] | (Hh & long & Hl & ->)];
    [discriminate|].
  destruct (isBlank (body !! "name")), (isBlank (body !! "email")),
    (isBlank (body !! "subject")), (isBlank (body !! "message")),
    (consentGiven rev (body !! "privacyConsent")), long;
    try discriminate Hv.
  repeat split; assumption.
Qed.

(** X2: the validator accepts a body exactly when the honeypot check lets
    it through, name, email and subject pass the presence check, the message
    is a string with a code unit that is not whitespace and at most 5000 code
    units long, and the consent condition of the file holds; the result is
    then [valid: true] with [errors: null]. *)
Theorem accepted_exactly (rev : revision) (body : object) :
  validateContactBody rev body = Normal {| valid := true; errors := ErrNull |} ↔
  honeypotEmpty body ∧
  isBlank (body !! "name") = false ∧ isBlank (body !! "email") = false ∧
  isBlank (body !! "subject") = false ∧
  (∃ m, body !! "message" = Some (JStr m) ∧ everyUnit isWhiteSpace m = false ∧
        (Z.of_nat (String.length m) <= 5000)%Z) ∧
  consentGiven rev (body !! "privacyConsent") = true.
Proof.
  split.
  - intros Hr.
    destruct (validateContactBody_valid rev body _ Hr eq_refl)
      as (Hh & Hl & Hn & He & Hs & Hm & Hc & _).
    apply honeypotFilled_empty in Hh.
    apply isBlank_false_iff in Hm as (m & Hm & Hws).
    rewrite (messageTooLong_string body m Hm) in Hl. injection Hl as Hl.
    apply Z.ltb_ge in Hl. repeat split; try assumption. now exists m.
  - intros (Hh & Hn & He & Hs & (m & Hm & Hws & Hlen) & Hc).
    apply honeypotFilled_empty in Hh.
    pose proof (messageTooLong_string body m Hm) as Hl.
    apply Z.ltb_ge in Hlen. rewrite Hlen in Hl.
    rewrite (validateContactBody_fields rev body false Hh Hl).
    rewrite Hn, He, Hs, Hc.
    assert (Hb : isBlank (body !! "message") = false).
    { apply isBlank_false_iff. now exists m. }
    rewrite Hb. reflexivity.
Qed.

Lemma result_shape_lemma (rev : revision) (body : object) (r : ValidationResult) :
  validateContactBody rev body = Normal r →
  (valid r = true ∧ errors r = ErrNull) ∨
  (valid r = false ∧
   (errors r = ErrArray ["Spam detected"] ∨
    ∃ text, errors r = ErrJoined text ∧ text ≠ "")).
Proof.
  intros Hr.
  apply validateContactBody_inv in Hr as [[_ ->] | (_ & long & _ & ->)].
  - right. split; [reflexivity|]. now left.
  - destruct (isBlank (body !! "name")), (isBlank (body !! "email")),
      (isBlank (body !! "subject")), (isBlank (body !! "message")),
      (negb (consentGiven rev (body !! "privacyConsent"))), long;
      cbn; first [ left; split; reflexivity
                 | right; split; [reflexivity|]; right; eexists; split;
                   [reflexivity | discriminate] ].
Qed.

(** X3: a result of the validator is either [valid: true] with
    [errors: null], or [valid: false] with a reason: the array with
    "Spam detected" alone, or a joined string that is not empty. *)
Theorem result_shape (rev : revision) (body : object) (r : ValidationResult) :
  validateContactBody rev body = Normal r →
  (valid r = true ∧ errors r = ErrNull) ∨
  (valid r = false ∧
   (errors r = ErrArray ["Spam detected"] ∨
    ∃ text, errors r = ErrJoined text ∧ text ≠ "")).
Proof. apply result_shape_lemma. Qed.

(** X4: a honeypot that the check lets through (absent, falsy, or a string of
    whitespace) has no influence on the outcome: the validator does on the
    body what it does on the body without the honeypot member. *)
Theorem empty_honeypot_ignored (rev : revision) (body : object) :
  honeypotEmpty body →
  validateContactBody rev body = validateContactBody rev (delete "honeypot" body).
Proof.
  intros Hh. apply honeypotFilled_empty in Hh.
  unfold validateContactBody. rewrite Hh.
  assert (Hd : honeypotFilled (delete "honeypot" body) = Normal false).
  { unfold honeypotFilled. now rewrite lookup_delete_eq. }
  rewrite Hd. cbn.
  unfold fieldErrors, messageTooLong.
  now rewrite !lookup_delete_ne by discriminate.
Qed.

(** X5: the two files give the same outcome on every body whose
    [privacyConsent] is not a string; they can differ only where [toBoolean]
    reads a string. *)
Theorem files_agree_unless_string_consent (body : object) :
  isString (body !! "privacyConsent") = false →
  validateContactBody Index_mjs body = validateContactBody Part_000 body.
Proof.
  intros Hs.
  assert (Hc : consentGiven Index_mjs (body !! "privacyConsent") =
               consentGiven Part_000 (body !! "privacyConsent")).
  { destruct (body !! "privacyConsent") as [[|[]|f|s|items|o]|];
      try reflexivity; discriminate. }
  unfold validateContactBody, fieldErrors. now rewrite Hc.
Qed.

End ValidatorProperties.

(** ** Further properties: the handler *)

Lemma trimOrNull_textOrFalsy (x : option value) :
  textOrFalsy x ↔ ∃ v, trimOrNull x = Normal (Some v).
Proof.
  unfold textOrFalsy, trimOrNull. split.
  - intros [Hf | Hs].
    + rewrite Hf. eauto.
    + destruct x as [[|?|?|c|?|?]|]; try discriminate.
      destruct (truthy _); cbn; eauto.
  - destruct (truthy x) eqn:Ht; [|now left].
    destruct x as [[|?|?|c|?|?]|]; cbn; intros [v Hv]; try discriminate.
    now right.
Qed.

Lemma trimOrNull_throws (x : option value) :
  truthy x = true → isString x = false → trimOrNull x = Throw TypeError.
Proof.
  unfold trimOrNull. intros Ht Hs. rewrite Ht.
  destruct x as [[|?|?|c|?|?]|]; try discriminate; reflexivity.
Qed.

Section HandlerProperties.
Context {conv : NumberConversions}.

(** The paths of the handler, each with the condition that selects it, its
    answer and its events. *)
Lemma contactHandler_cases (rev : revision) (w : World) (req : Request) :
  let body := req_body req in
  let unexpected e := (serverError, [Validate body; ConsoleError (LogUnexpected e)]) in
  (∃ e, validateContactBody rev body = Throw e ∧
        contactHandler rev w req = unexpected e) ∨
  (∃ r, validateContactBody rev body = Normal r ∧ valid r = false ∧
        contactHandler rev w req = (badRequest (errors r), [Validate body])) ∨
  (∃ r, validateContactBody rev body = Normal r ∧ valid r = true ∧
     ((∃ e, payload rev w req = Throw e ∧ contactHandler rev w req = unexpected e) ∨
      (∃ p, payload rev w req = Normal p ∧
         ((∃ e, signJWT w = Throw e ∧ contactHandler rev w req = unexpected e) ∨
          (∃ jwt, signJWT w = Normal jwt ∧
             let sent := JSON_stringify p in
             contactHandler rev w req =
             match downstream w jwt sent with
             | FetchRejected message =>
                 (n8nError, [Validate body; Fetch jwt sent;
                             ConsoleError (LogForwardError message)])
             | FetchResponse st text =>
                 if responseOk st
                 then (okResponse, [Validate body; Fetch jwt sent])
                 else (n8nError, ([Validate body; Fetch jwt sent]
                                    ++ rejectionLog rev st text)%list)
             end))))).
Proof.
  cbn zeta. unfold contactHandler.
  destruct (validateContactBody rev (req_body req)) as [r|e]; [|left; eauto].
  right. destruct (valid r) eqn:Hv; [right | left; exists r; auto].
  exists r. split; [reflexivity|]. split; [exact Hv|]. cbn [negb].
  destruct (payload rev w req) as [p|e]; [right | left; eauto].
  exists p. split; [reflexivity|].
  destruct (signJWT w) as [jwt|e]; [right | left; eauto].
  exists jwt. split; [reflexivity|]. cbn zeta.
  destruct (downstream w jwt (JSON_stringify p)) as [message|st text]; [reflexivity|].
  destruct (responseOk st); reflexivity.
Qed.

Lemma countFetch_rejectionLog (rev : revision) (st : Z) (text : option string) :
  countFetch (rejectionLog rev st text) = 0.
Proof. destruct rev; reflexivity. Qed.

(** X6: the handler forwards only what the validator accepted, and only with
    the token the signer returned. *)
Theorem forward_only_when_valid (rev : revision) (w : World) (req : Request)
    (jwt : string) (sent : list (string * value)) :
  In (Fetch jwt sent) (snd (contactHandler rev w req)) →
  validateContactBody rev (req_body req) = Normal {| valid := true; errors := ErrNull |} ∧
  signJWT w = Normal jwt.
Proof.
  intros Hin.
  apply contactHandler_fetch in Hin as (r & p & Hr & Hv & _ & Hj & _).
  destruct (validateContactBody_valid rev _ r Hr Hv) as (_ & _ & _ & _ & _ & _ & _ & ->).
  now split.
Qed.

(** X7: the four required members of a forwarded body are the trimmed
    strings of the submission; none is empty, and the message has at most 5000
    code units. *)
Theorem forwarded_required_members (rev : revision) (w : World) (req : Request)
    (jwt : string) (sent : list (string * value)) :
  In (Fetch jwt sent) (snd (contactHandler rev w req)) →
  ∃ n e s m,
    req_body req !! "name" = Some (JStr n) ∧ member "name" sent = Some (JStr (trim n)) ∧
    req_body req !! "email" = Some (JStr e) ∧ member "email" sent = Some (JStr (trim e)) ∧
    req_body req !! "subject" = Some (JStr s) ∧ member "subject" sent = Some (JStr (trim s)) ∧
    req_body req !! "message" = Some (JStr m) ∧ member "message" sent = Some (JStr (trim m)) ∧
    trim n ≠ "" ∧ trim e ≠ "" ∧ trim s ≠ "" ∧ trim m ≠ "" ∧
    (Z.of_nat (String.length (trim m)) <= 5000)%Z.
Proof.
  intros Hin.
  apply contactHandler_fetch in Hin as (r & p & Hr & Hv & Hp & _ & -> & _).
  destruct (validateContactBody_valid rev _ r Hr Hv)
    as (_ & Hl & Hbn & Hbe & Hbs & Hbm & _).
  apply payload_sent in Hp
    as (n & e & s & m & company & phone & ua & lang & ts &
        Hn & He & Hs & Hm & _ & _ & _ & _ & _ & ->).
  rewrite Hn in Hbn. rewrite He in Hbe. rewrite Hs in Hbs. rewrite Hm in Hbm.
  rewrite isBlank_string, <- trim_empty in Hbn, Hbe, Hbs, Hbm.
  apply String.eqb_neq in Hbn, Hbe, Hbs, Hbm.
  rewrite (messageTooLong_string _ m Hm) in Hl. injection Hl as Hl.
  apply Z.ltb_ge in Hl. pose proof (trim_length m) as Hle.
  exists n, e, s, m.
  repeat (split; [first [assumption | reflexivity | lia]|]). lia.
Qed.

(** X8: a forwarded body has exactly the keys of the payload literal of its
    file, each once and in the order of the literal, whatever members the
    submission has. *)
Theorem forwarded_keys (rev : revision) (w : World) (req : Request)
    (jwt : string) (sent : list (string * value)) :
  In (Fetch jwt sent) (snd (contactHandler rev w req)) →
  fst <$> sent = payloadKeys rev.
Proof.
  intros Hin.
  apply contactHandler_fetch in Hin as (r & p & _ & _ & Hp & _ & -> & _).
  apply payload_sent in Hp
    as (n & e & s & m & company & phone & ua & lang & ts & _ & _ & _ & _ & _ & _ & _ & _ & _ & ->).
  destruct rev; reflexivity.
Qed.


(** X10: in a body forwarded by the second file, [privacyConsent] is the
    boolean true, and [whatsappConsent] is a boolean: true exactly when the
    submission gave boolean true or a string equal to "true" up to case. *)
Theorem forwarded_consents (w : World) (req : Request)
    (jwt : string) (sent : list (string * value)) :
  In (Fetch jwt sent) (snd (contactHandler Part_000 w req)) →
  member "privacyConsent" sent = Some (JBool true) ∧
  member "whatsappConsent" sent =
  Some (JBool (consentAccepted (req_body req !! "whatsappConsent"))).
Proof.
  intros Hin.
  apply contactHandler_fetch in Hin as (r & p & Hr & Hv & Hp & _ & -> & _).
  destruct (validateContactBody_valid Part_000 _ r Hr Hv) as (_ & _ & _ & _ & _ & _ & Hc & _).
  apply payload_sent in Hp
    as (n & e & s & m & company & phone & ua & lang & ts & _ & _ & _ & _ & _ & _ & _ & _ & _ & ->).
  cbn in Hc. cbn. rewrite Hc, toBoolean_consentAccepted. split; reflexivity.
Qed.

(** X11: [userAgent], [language] and, in the second file, [timestamp] are
    forwarded whenever the submission gives a truthy value, whatever its type
    and with no trimming: the member sent is what [JSON.stringify] writes for
    that value, which is the value itself for a string, a boolean, a finite
    number other than negative zero, and for an array or object of such; a
    number that is not finite (1e400 parses to Infinity) is sent as null. *)
Theorem forwarded_as_given (rev : revision) (w : World) (req : Request)
    (jwt : string) (sent : list (string * value)) (k : string) :
  In (Fetch jwt sent) (snd (contactHandler rev w req)) →
  k = "userAgent" ∨ k = "language" ∨ (k = "timestamp" ∧ rev = Part_000) →
  truthy (req_body req !! k) = true →
  ∃ v, req_body req !! k = Some v ∧ member k sent = Some (JSON_value v) ∧
       (∀ t, v = JStr t → member k sent = Some (JStr t)) ∧
       (∀ b, v = JBool b → member k sent = Some (JBool b)) ∧
       (∀ f, v = JNum f → member k sent = Some (if isFinite f then JNum f else JNull)).
Proof.
  intros Hin Hk Ht.
  apply contactHandler_fetch in Hin as (r & p & _ & _ & Hp & _ & -> & _).
  apply payload_sent in Hp
    as (n & e & s & m & company & phone & ua & lang & ts &
        _ & _ & _ & _ & _ & _ & Hua & Hlang & Hts & ->).
  assert (Hsent : ∃ v, req_body req !! k = Some v ∧
            member k
              ([("name", JStr (trim n)); ("email", JStr (trim e));
                ("subject", JStr (trim s)); ("message", JStr (trim m));
                ("company", company); ("phone", phone)]
               ++ match rev with
                  | Index_mjs => []
                  | Part_000 =>
                      [("whatsappConsent",
                        JBool (toBoolean (req_body req !! "whatsappConsent")));
                       ("privacyConsent",
                        JBool (toBoolean (req_body req !! "privacyConsent")))]
                  end
               ++ [("ip", JStr (getClientIp req)); ("userAgent", JSON_value ua);
                   ("language", JSON_value lang)]
               ++ match rev with
                  | Index_mjs => []
                  | Part_000 => [("timestamp", JSON_value ts)]
                  end
               ++ [("createdAt", JStr (toISOString_now w))])%list
            = Some (JSON_value v)).
  { destruct Hk as [-> | [-> | [-> ->]]].
    - rewrite (js_or_truthy _ _ Ht) in Hua. exists ua. split; [exact Hua|].
      destruct rev; reflexivity.
    - rewrite (js_or_truthy _ _ Ht) in Hlang. exists lang. split; [exact Hlang|].
      destruct rev; reflexivity.
    - rewrite (js_or_truthy _ _ Ht) in Hts. exists ts. split; [exact Hts|].
      reflexivity. }
  destruct Hsent as (v & Hv & Hm). exists v.
  split; [exact Hv|]. split; [exact Hm|].
  split; [intros t ->; exact Hm|]. split; [intros b ->; exact Hm|].
  intros f ->. rewrite Hm. cbn [JSON_value].
  destruct (isFinite f); [|reflexivity].
  destruct (PrimFloat.is_zero f) eqn:Hz; [|reflexivity].
  exfalso. rewrite Hv in Ht. unfold truthy in Ht. rewrite Hz in Ht. discriminate.
Qed.

(** X12: [company] and [phone], when the submission gives a truthy value,
    are forwarded as that string trimmed; a string of spaces is forwarded as
    the empty string, not as null. *)
Theorem forwarded_company_phone (rev : revision) (w : World) (req : Request)
    (jwt : string) (sent : list (string * value)) (k : string) :
  In (Fetch jwt sent) (snd (contactHandler rev w req)) →
  k = "company" ∨ k = "phone" →
  truthy (req_body req !! k) = true →
  ∃ c, req_body req !! k = Some (JStr c) ∧ member k sent = Some (JStr (trim c)).
Proof.
  intros Hin Hk Ht.
  apply contactHandler_fetch in Hin as (r & p & _ & _ & Hp & _ & -> & _).
  apply payload_sent in Hp
    as (n & e & s & m & company & phone & ua & lang & ts &
        _ & _ & _ & _ & Hc & Hph & _ & _ & _ & ->).
  destruct Hk as [-> | ->].
  - destruct (trimOrNull_truthy _ _ Hc Ht) as (c & Hbody & ->).
    exists c. split; [exact Hbody|]. destruct rev; reflexivity.
  - destruct (trimOrNull_truthy _ _ Hph Ht) as (c & Hbody & ->).
    exists c. split; [exact Hbody|]. destruct rev; reflexivity.
Qed.

End HandlerProperties.

Lemma trimOrNull_cases (x : option value) :
  (∃ v, trimOrNull x = Normal (Some v)) ∨ trimOrNull x = Throw TypeError.
Proof.
  unfold trimOrNull. destruct (truthy x); [|eauto].
  destruct x as [[|?|?|c|?|?]|]; cbn; eauto.
Qed.

(** Building the payload of a body whose required fields passed the presence
    check throws exactly when [company] or [phone] is truthy and not a
    string. *)
Lemma payload_outcome (rev : revision) (w : World) (req : Request) :
  let body := req_body req in
  isBlank (body !! "name") = false → isBlank (body !! "email") = false →
  isBlank (body !! "subject") = false → isBlank (body !! "message") = false →
  (textOrFalsy (body !! "company") ∧ textOrFalsy (body !! "phone") ∧
   ∃ p, payload rev w req = Normal p) ∨
  ((¬ textOrFalsy (body !! "company") ∨ ¬ textOrFalsy (body !! "phone")) ∧
   payload rev w req = Throw TypeError).
Proof.
  cbn zeta. intros Hn He Hs Hm.
  apply isBlank_false_iff in Hn as (n & Hn & _).
  apply isBlank_false_iff in He as (e & He & _).
  apply isBlank_false_iff in Hs as (s & Hs & _).
  apply isBlank_false_iff in Hm as (m & Hm & _).
  unfold payload. rewrite Hn, He, Hs, Hm. cbn [callTrim mbind completion_bind].
  destruct (trimOrNull_cases (req_body req !! "company")) as [[vc Hc] | Hc].
  - destruct (trimOrNull_cases (req_body req !! "phone")) as [[vp Hp] | Hp].
    + left. split; [apply trimOrNull_textOrFalsy; eauto|].
      split; [apply trimOrNull_textOrFalsy; eauto|].
      rewrite Hc, Hp. cbn. eauto.
    + right. split.
      * right. intros H. apply trimOrNull_textOrFalsy in H as [v Hv]. congruence.
      * rewrite Hc, Hp. reflexivity.
  - right. split.
    + left. intros H. apply trimOrNull_textOrFalsy in H as [v Hv]. congruence.
    + rewrite Hc. reflexivity.
Qed.

Section HandlerOutcomes.
Context {conv : NumberConversions}.

(** X13: a submission that the validator accepts but whose [company] or
    [phone] is truthy and not a string (a number, true, an array, an object)
    is answered 500 "Server error": [trim] is called on it without a type
    check.  Nothing is signed or forwarded. *)
Theorem untyped_optional_field_fails (rev : revision) (w : World) (req : Request) :
  validateContactBody rev (req_body req) = Normal {| valid := true; errors := ErrNull |} →
  (truthy (req_body req !! "company") = true ∧ isString (req_body req !! "company") = false) ∨
  (truthy (req_body req !! "phone") = true ∧ isString (req_body req !! "phone") = false) →
  contactHandler rev w req =
  ({| status := 500; json := [("ok", JBool false); ("error", JStr "Server error")] |},
   [Validate (req_body req); ConsoleError (LogUnexpected TypeError)]).
Proof.
  intros Hr Hbad.
  destruct (validateContactBody_valid rev _ _ Hr eq_refl)
    as (_ & _ & Hn & He & Hs & Hm & _).
  destruct (payload_outcome rev w req Hn He Hs Hm) as [(Hc & Hp & _) | (_ & Hthrow)].
  - exfalso. unfold textOrFalsy in Hc, Hp.
    destruct Hbad as [[Ht Hstr] | [Ht Hstr]]; [destruct Hc | destruct Hp]; congruence.
  - unfold contactHandler. rewrite Hr, Hthrow. reflexivity.
Qed.

(** X14: a submission that the validator accepts and whose [company] and
    [phone] are falsy or strings is forwarded once, with the signer's token,
    whenever signing succeeds; the answer is 200 [ok: true] when the downstream
    answers with a status in 200-299 and the 500 "n8n error" otherwise. *)
Theorem valid_submission_forwarded (rev : revision) (w : World) (req : Request)
    (jwt : string) :
  validateContactBody rev (req_body req) = Normal {| valid := true; errors := ErrNull |} →
  textOrFalsy (req_body req !! "company") →
  textOrFalsy (req_body req !! "phone") →
  signJWT w = Normal jwt →
  ∃ sent,
    In (Fetch jwt sent) (snd (contactHandler rev w req)) ∧
    countFetch (snd (contactHandler rev w req)) = 1 ∧
    fst (contactHandler rev w req) =
    match downstream w jwt sent with
    | FetchRejected _ => n8nError
    | FetchResponse st _ => if responseOk st then okResponse else n8nError
    end.
Proof.
  intros Hr Hc Hp Hj.
  destruct (validateContactBody_valid rev _ _ Hr eq_refl)
    as (_ & _ & Hn & He & Hs & Hm & _).
  destruct (payload_outcome rev w req Hn He Hs Hm) as [(_ & _ & p & Hpay) | ([H|H] & _)];
    [|contradiction..].
  exists (JSON_stringify p).
  unfold contactHandler. rewrite Hr, Hpay, Hj. cbn [valid negb]. cbn zeta.
  destruct (downstream w jwt (JSON_stringify p)) as [message|st text].
  - cbn. auto.
  - destruct (responseOk st); cbn [fst snd].
    + cbn. auto.
    + split; [cbn; auto|]. split; [|reflexivity].
      cbn. now rewrite countFetch_rejectionLog.
Qed.

(** X15: every answer of the handler has status 200, 400 or 500, and its
    member [ok] is true exactly when the status is 200. *)
Theorem answer_ok_member (rev : revision) (w : World) (req : Request) :
  let answer := fst (contactHandler rev w req) in
  In (status answer) [200; 400; 500]%Z ∧
  member "ok" (json answer) = Some (JBool (status answer =? 200)%Z).
Proof.
  cbn zeta.
  destruct (contactHandler_cases rev w req)
    as [(e & _ & ->) | [(r & _ & _ & ->) |
        (r & _ & _ & [(e & _ & ->) | (p & _ & [(e & _ & ->) | (jwt & _ & ->)])])]];
    cbn; try tauto.
  destruct (downstream w jwt (JSON_stringify p)) as [message|st text]; [cbn; tauto|].
  destruct (responseOk st); cbn; tauto.
Qed.

(** X16: the handler answers 200 only after a forward that the downstream
    answered with a status in 200-299. *)
Theorem success_means_delivered (rev : revision) (w : World) (req : Request) :
  status (fst (contactHandler rev w req)) = 200%Z →
  ∃ jwt sent st text,
    In (Fetch jwt sent) (snd (contactHandler rev w req)) ∧
    downstream w jwt sent = FetchResponse st text ∧ responseOk st = true.
Proof.
  destruct (contactHandler_cases rev w req)
    as [(e & _ & ->) | [(r & _ & _ & ->) |
        (r & _ & _ & [(e & _ & ->) | (p & _ & [(e & _ & ->) | (jwt & _ & ->)])])]];
    cbn; try discriminate.
  destruct (downstream w jwt (JSON_stringify p)) as [message|st text] eqn:Hd;
    [cbn; discriminate|].
  destruct (responseOk st) eqn:Hok; [|cbn; discriminate].
  intros _. exists jwt, (JSON_stringify p), st, text. cbn. auto.
Qed.

(** X17: the handler calls [fetch] at most once for a request: a failed
    forward is not tried again. *)
Theorem single_forward (rev : revision) (w : World) (req : Request) :
  countFetch (snd (contactHandler rev w req)) <= 1.
Proof.
  destruct (contactHandler_cases rev w req)
    as [(e & _ & ->) | [(r & _ & _ & ->) |
        (r & _ & _ & [(e & _ & ->) | (p & _ & [(e & _ & ->) | (jwt & _ & ->)])])]];
    cbn; try lia.
  destruct (downstream w jwt (JSON_stringify p)) as [message|st text]; [cbn; lia|].
  destruct (responseOk st); cbn; [lia|]. rewrite countFetch_rejectionLog. lia.
Qed.

(** X18: when the signer throws, nothing is forwarded and the answer is 400
    (the body was not valid) or 500. *)
Theorem signer_failure (rev : revision) (w : World) (req : Request) (e : exception) :
  signJWT w = Throw e →
  countFetch (snd (contactHandler rev w req)) = 0 ∧
  In (status (fst (contactHandler rev w req))) [400; 500]%Z.
Proof.
  intros Hj.
  destruct (contactHandler_cases rev w req)
    as [(e' & _ & ->) | [(r & _ & _ & ->) |
        (r & _ & _ & [(e' & _ & ->) | (p & _ & [(e' & _ & ->) | (jwt & Hj' & _)])])]];
    cbn; try tauto.
  congruence.
Qed.

End HandlerOutcomes.

(** ** Further properties: client identity *)

Lemma allDigitOrDot_everyUnit (s : string) :
  allDigitOrDot s = everyUnit isDigitOrDot s.
Proof. induction s as [|c s IH]; [reflexivity|]. cbn. now rewrite IH. Qed.

(** The fallback of [keyGenerator]: [req.ip], else the socket's address,
    else "unknown"; never the empty string. *)
Lemma key_fallback (ip socket : option string) :
  let key := if present ip then default "" ip
             else if present socket then default "" socket else "unknown" in
  key ≠ "" ∧
  (∀ a, ip = Some a → a ≠ "" → key = a) ∧
  (present ip = false → ∀ a, socket = Some a → a ≠ "" → key = a) ∧
  (present ip = false → present socket = false → key = "unknown").
Proof.
  cbn zeta. destruct ip as [i|], socket as [a|]; cbv [present from_option id];
    repeat match goal with
           | |- context [String.eqb ?x ""] =>
               destruct (String.eqb_spec x ""); cbn [negb]
           end;
    repeat split; intros; subst; try discriminate; try congruence.
Qed.

(** X19: the key of the limiter is never the empty string, and it is chosen
    in this order: the first element of [x-forwarded-for], trimmed, when that
    is not empty and made of digits and dots only; otherwise [req.ip] when that
    is not empty; otherwise the socket's address when that is not empty;
    otherwise "unknown". *)
Theorem keyGenerator_priority (req : Request) :
  let usable (h : string) :=
    trim (firstSegment h) ≠ "" ∧
    everyUnit isDigitOrDot (trim (firstSegment h)) = true in
  keyGenerator req ≠ "" ∧
  (∀ h, req_headers req !! "x-forwarded-for" = Some h → usable h →
        keyGenerator req = trim (firstSegment h)) ∧
  ((∀ h, req_headers req !! "x-forwarded-for" = Some h → ¬ usable h) →
   (∀ ip, req_ip req = Some ip → ip ≠ "" → keyGenerator req = ip) ∧
   (present (req_ip req) = false →
    ∀ a, socket_remoteAddress req = Some a → a ≠ "" → keyGenerator req = a) ∧
   (present (req_ip req) = false → present (socket_remoteAddress req) = false →
    keyGenerator req = "unknown")).
Proof.
  cbn zeta. unfold keyGenerator.
  pose proof (key_fallback (req_ip req) (socket_remoteAddress req)) as Hfb.
  cbn zeta in Hfb. destruct Hfb as (Hne & Hip & Hsock & Hnone).
  destruct (req_headers req !! "x-forwarded-for") as [h|] eqn:Hh.
  - change (default "" (Some h)) with h.
    destruct (looksLikeIp (trim (firstSegment h))) eqn:Hlook.
    + assert (Hp : present (Some h) = true).
      { destruct h; [discriminate Hlook | reflexivity]. }
      rewrite Hp. cbn [andb].
      unfold looksLikeIp in Hlook. apply andb_true_iff in Hlook as [Hn Hd].
      apply negb_true_iff, String.eqb_neq in Hn.
      rewrite allDigitOrDot_everyUnit in Hd.
      split; [exact Hn|]. split.
      * intros h' [= <-] _. reflexivity.
      * intros Hno. exfalso. apply (Hno h eq_refl). now split.
    + rewrite andb_false_r.
      split; [exact Hne|]. split.
      * intros h' [= <-] [Hn Hd]. exfalso.
        unfold looksLikeIp in Hlook. rewrite allDigitOrDot_everyUnit, Hd in Hlook.
        apply String.eqb_neq in Hn. rewrite Hn in Hlook. discriminate.
      * intros _. repeat split; assumption.
  - cbn [present andb].
    split; [exact Hne|]. split.
    + intros h [=].
    + intros _. repeat split; assumption.
Qed.

(** X20: when the first address of [x-forwarded-for] is made of digits and
    dots, the key of the limiter is the address that [getClientIp] puts in the
    payload, whatever [req.ip] and the socket say. *)
Theorem key_is_forwarded_address (req : Request) (forwarded : string) :
  req_headers req !! "x-forwarded-for" = Some forwarded →
  looksLikeIp (trim (firstSegment forwarded)) = true →
  keyGenerator req = trim (firstSegment forwarded) ∧
  getClientIp req = trim (firstSegment forwarded).
Proof.
  intros Hf Hip. unfold keyGenerator, getClientIp. rewrite Hf.
  change (default "" (Some forwarded)) with forwarded.
  assert (Hp : present (Some forwarded) = true).
  { destruct forwarded; [discriminate Hip | reflexivity]. }
  rewrite Hp, Hip. split; reflexivity.
Qed.

(** X21: with a non-empty [x-forwarded-for], [getClientIp] returns its first
    comma-separated element, trimmed: a string with no comma that trimming
    leaves unchanged.  The socket's address is not consulted. *)
Theorem getClientIp_forwarded (req : Request) (forwarded : string) :
  req_headers req !! "x-forwarded-for" = Some forwarded →
  forwarded ≠ "" →
  getClientIp req = trim (firstSegment forwarded) ∧
  everyUnit notComma (getClientIp req) = true ∧
  trim (getClientIp req) = getClientIp req.
Proof.
  intros Hf Hne. unfold getClientIp. rewrite Hf.
  change (default "" (Some forwarded)) with forwarded. cbn [present].
  apply String.eqb_neq in Hne. rewrite Hne. cbn [negb].
  split; [reflexivity|]. split.
  - apply everyUnit_trim, firstSegment_notComma.
  - apply trim_idempotent.
Qed.


Section BadRequest.
Context {conv : NumberConversions}.


End BadRequest.

(** ** Closed examples *)

(** The evaluations that the examples below rest on do not depend on the
    two conversions. *)
Lemma examples_any_conversions (conv : NumberConversions) :
  validateContactBody Part_000 botBody =
    Normal {| valid := false; errors := ErrArray ["Spam detected"] |} ∧
  validateContactBody Index_mjs (<["privacyConsent" := JStr "true"]> completeBody) =
    Normal {| valid := false; errors := ErrJoined "Privacy consent is required" |} ∧
  validateContactBody Part_000
    (<["message" := JStr (replicate_unit (Z.to_nat 5001) "a")]> botBody) =
    Normal {| valid := false; errors := ErrArray ["Spam detected"] |} ∧
  validateContactBody Part_000
    (<["message" := JStr (replicate_unit (Z.to_nat 5001) " ")]> completeBody) =
    Normal {| valid := false;
              errors := ErrJoined "Message is required, Message must be 5000 characters or less" |} ∧
  validateContactBody Part_000 completeBody =
    Normal {| valid := true; errors := ErrNull |}.
Proof. repeat split; vm_compute; reflexivity. Qed.

(** What the specification accepts as consent, on the values it names. *)
Lemma consentAccepted_examples :
  consentAccepted (Some (JBool true)) = true ∧
  consentAccepted (Some (JStr "true")) = true ∧
  consentAccepted (Some (JStr "TRUE")) = true ∧
  consentAccepted (Some (JStr "false")) = false ∧
  consentAccepted (Some (JNum 1%float)) = false ∧
  consentAccepted None = false.
Proof. repeat split. Qed.

#[local] Existing Instance noNumericStrings.

Lemma consent_reason_reported_witness :
  ∃ r, validateContactBody Part_000 completeBody = Normal r ∧
       (reports r "Privacy consent is required" = false ↔
        acceptsConsent Part_000 (completeBody !! "privacyConsent")).
Proof.
  apply (consent_reason_reported Part_000 completeBody).
  - left. reflexivity.
  - exact I.
Defined.

(** C1, as stated, fails: with the honeypot filled, the string "false" as
    consent draws no consent reason in the second file; and [index.mjs]
    rejects the string "true". *)
Lemma consent_reason_counterexample :
  botBody !! "privacyConsent" = Some (JStr "false") ∧
  validateContactBody Part_000 botBody =
    Normal {| valid := false; errors := ErrArray ["Spam detected"] |} ∧
  reports {| valid := false; errors := ErrArray ["Spam detected"] |}
    "Privacy consent is required" = false ∧
  validateContactBody Index_mjs (<["privacyConsent" := JStr "true"]> completeBody) =
    Normal {| valid := false; errors := ErrJoined "Privacy consent is required" |}.
Proof. repeat split; vm_compute; reflexivity. Qed.

Lemma honeypot_short_circuit_witness :
  validateContactBody Index_mjs botBody =
  Normal {| valid := false; errors := ErrArray ["Spam detected"] |}.
Proof.
  apply (honeypot_short_circuit Index_mjs botBody "bot").
  - reflexivity.
  - discriminate.
Defined.

(** C2, as stated, fails: the reason is spelled "Spam detected", not
    "spam detected". *)
Lemma honeypot_reason_counterexample :
  validateContactBody Part_000 {[ "honeypot" := JStr "bot" ]} ≠
  Normal {| valid := false; errors := ErrArray ["spam detected"] |}.
Proof. vm_compute. discriminate. Qed.

Lemma forwarded_optional_members_witness :
  let sent :=
    [("name", JStr "Ada Lovelace"); ("email", JStr "ada@example.com");
     ("subject", JStr "Analytical engine"); ("message", JStr "Hello");
     ("company", JNull); ("phone", JNull);
     ("ip", JStr "203.0.113.7"); ("userAgent", JStr "curl/8.0");
     ("language", JNull);
     ("createdAt", JStr "2024-11-17T10:30:00.000Z")] in
  member "company" sent = Some JNull ∧
  (member "timestamp" sent = None ∧ member "whatsappConsent" sent = None) ∧
  member "userAgent" sent = Some (JStr "curl/8.0").
Proof.
  intros sent.
  pose proof (forwarded_optional_members Index_mjs (answering 200 "ok")
                (browserRequest (<["privacyConsent" := JBool true]> completeBody))
                "header.claims.signature" sent) as H.
  destruct H as (_ & Hcompany & _ & _ & _ & Hmissing & Hheader & _).
  - vm_compute. right. left. reflexivity.
  - split; [apply Hcompany; reflexivity|]. split; [exact Hmissing|].
    apply Hheader; [reflexivity | reflexivity | discriminate].
Defined.

(** C4, as stated, fails: the body gives no userAgent and the member sent is
    the User-Agent header, not null; and [index.mjs] sends no timestamp
    member at all. *)
Lemma forwarded_userAgent_counterexample :
  let req := browserRequest completeBody in
  req_body req !! "userAgent" = None ∧
  req_body req !! "timestamp" = None ∧
  (∃ jwt sent, In (Fetch jwt sent) (snd (contactHandler Part_000 (answering 200 "ok") req)) ∧
               member "userAgent" sent = Some (JStr "curl/8.0")) ∧
  (∃ jwt sent, In (Fetch jwt sent)
                 (snd (contactHandler Index_mjs (answering 200 "ok")
                         (browserRequest (<["privacyConsent" := JBool true]> completeBody)))) ∧
               member "timestamp" sent = None).
Proof.
  cbv zeta. split; [reflexivity|]. split; [reflexivity|]. split.
  - eexists _, _. split; [vm_compute; right; left; reflexivity | reflexivity].
  - eexists _, _. split; [vm_compute; right; left; reflexivity | reflexivity].
Qed.

Lemma three_requests_per_window_witness :
  ∃ answer, serve Part_000 keyGenerator ∅ burst !! 3 = Some answer ∧
    (length (arrivalsOf keyGenerator "203.0.113.7" (take 3 burst)) < 3 →
     answer = contactHandler Part_000 (answering 200 "ok") (browserRequest completeBody) ∧
     In (Validate completeBody) (snd answer)) ∧
    (3 <= length (arrivalsOf keyGenerator "203.0.113.7" (take 3 burst)) →
     answer =
     ({| status := 429;
         json := [("ok", JBool false);
                  ("error", JStr "Too many requests, please try again later")] |},
      [])).
Proof.
  apply (three_requests_per_window Part_000 keyGenerator ∅ "203.0.113.7" 0 burst 3
           {| arrives := 3000; world := answering 200 "ok";
              request := browserRequest completeBody |}).
  - exact I.
  - intros b Hb _. cbn in Hb.
    destruct Hb as [<-|[<-|[<-|[<-|[]]]]]; cbn; lia.
  - reflexivity.
  - reflexivity.
Defined.

(** The fourth arrival of the burst is the one turned away. *)
Lemma burst_fourth_denied :
  serve Part_000 keyGenerator ∅ burst !! 3 =
  Some (contactRateLimiter.handler, []) ∧
  serve Part_000 keyGenerator ∅ burst !! 2 =
  Some (contactHandler Part_000 (answering 200 "ok") (browserRequest completeBody)).
Proof. split; vm_compute; reflexivity. Qed.

Lemma length_reason_boundary_witness :
  let body := <["message" := JStr (replicate_unit (Z.to_nat 5001) "a")]> completeBody in
  (honeypotEmpty body →
   ∃ r, validateContactBody Part_000 body = Normal r ∧
        reports r "Message must be 5000 characters or less" =
        (5000 <? Z.of_nat (String.length (replicate_unit (Z.to_nat 5001) "a")))%Z) ∧
  ((Z.of_nat (String.length (replicate_unit (Z.to_nat 5001) "a")) <= 5000)%Z →
   ∀ r, validateContactBody Part_000 body = Normal r →
        reports r "Message must be 5000 characters or less" = false).
Proof.
  intros body.
  apply (length_reason_boundary Part_000 body (replicate_unit (Z.to_nat 5001) "a")).
  reflexivity.
Defined.

(** What the validator returns at the two sides of the bound. *)
Lemma length_bound_examples :
  validateContactBody Part_000
    (<["message" := JStr (replicate_unit (Z.to_nat 5000) "a")]> completeBody) =
    Normal {| valid := true; errors := ErrNull |} ∧
  validateContactBody Part_000
    (<["message" := JStr (replicate_unit (Z.to_nat 5001) "a")]> completeBody) =
    Normal {| valid := false;
              errors := ErrJoined "Message must be 5000 characters or less" |}.
Proof. split; vm_compute; reflexivity. Qed.

(** C6, as stated, fails: with the honeypot filled, a message of 5001 code
    units draws no length reason. *)
Lemma length_reason_counterexample :
  let body := <["message" := JStr (replicate_unit (Z.to_nat 5001) "a")]> botBody in
  String.length (replicate_unit (Z.to_nat 5001) "a") = Z.to_nat 5001 ∧
  validateContactBody Part_000 body =
    Normal {| valid := false; errors := ErrArray ["Spam detected"] |} ∧
  reports {| valid := false; errors := ErrArray ["Spam detected"] |}
    "Message must be 5000 characters or less" = false ∧
  validateContactBody Index_mjs body =
    Normal {| valid := false; errors := ErrArray ["Spam detected"] |}.
Proof. cbv zeta. repeat split; vm_compute; reflexivity. Qed.

Lemma message_reasons_together_witness :
  let body := <["message" := JStr (replicate_unit (Z.to_nat 5001) " ")]> completeBody in
  let r := {| valid := false;
              errors := ErrJoined "Message is required, Message must be 5000 characters or less" |} in
  (reports r "Message is required" = true ∧
   reports r "Message must be 5000 characters or less" = true) ↔
  (honeypotEmpty body ∧ oversizedBlankMessage body).
Proof.
  intros body r.
  apply (message_reasons_together Part_000 body r).
  vm_compute. reflexivity.
Defined.

(** C8, as stated, fails: a message of 5001 spaces is reported both as
    missing and as too long. *)
Lemma message_reasons_counterexample :
  validateContactBody Part_000
    (<["message" := JStr (replicate_unit (Z.to_nat 5001) " ")]> completeBody) =
  Normal {| valid := false;
            errors := ErrJoined "Message is required, Message must be 5000 characters or less" |}.
Proof. vm_compute. reflexivity. Qed.

(** The same for a message that is an array of 5001 elements. *)
Lemma message_array_example :
  validateContactBody Part_000
    (<["message" := JArr (List.repeat JNull (Z.to_nat 5001))]> completeBody) =
  Normal {| valid := false;
            errors := ErrJoined "Message is required, Message must be 5000 characters or less" |}.
Proof. vm_compute. reflexivity. Qed.

Lemma forward_failure_answer_witness :
  fst (contactHandler Part_000 (answering 503 "upstream unavailable")
         (browserRequest completeBody)) =
  {| status := 500; json := [("ok", JBool false); ("error", JStr "n8n error")] |}.
Proof.
  eapply (forward_failure_answer Part_000 (answering 503 "upstream unavailable")
            (browserRequest completeBody)).
  - vm_compute. right. left. reflexivity.
  - reflexivity.
Defined.

(** The same answer when the connection is refused. *)
Lemma connection_refused_example :
  fst (contactHandler Index_mjs
         {| toISOString_now := "2024-11-17T10:30:00.000Z";
            signJWT := Normal "header.claims.signature";
            downstream := λ _ _, FetchRejected "fetch failed" |}
         (browserRequest (<["privacyConsent" := JBool true]> completeBody))) =
  n8nError.
Proof. vm_compute. reflexivity. Qed.

Lemma validation_reads_six_fields_witness :
  validateContactBody Part_000 completeBody =
  validateContactBody Part_000
    (<["company" := JNum 7%float]> (<["timestamp" := JStr "yesterday"]> completeBody)).
Proof.
  apply (validation_reads_six_fields Part_000).
  intros k Hk. cbn in Hk.
  destruct Hk as [<-|[<-|[<-|[<-|[<-|[<-|[]]]]]]]; reflexivity.
Defined.

(** On the honeypot path the [error] member of the 400 answer is the array
    of reasons itself, not a joined string. *)
Lemma spam_answer_example :
  fst (contactHandler Part_000 (answering 200 "ok") (browserRequest botBody)) =
  {| status := 400;
     json := [("ok", JBool false); ("error", JArr [JStr "Spam detected"])] |}.
Proof. vm_compute. reflexivity. Qed.

(** What the route answers at the two failing inputs of the validator: the
    exception is caught by the handler and answered as a server error. *)
Lemma thrown_validation_answer :
  fst (contactHandler Part_000 (answering 200 "ok")
         (browserRequest {[ "honeypot" := JNum 1%float ]})) = serverError ∧
  fst (contactHandler Part_000 (answering 200 "ok")
         (browserRequest
            {[ "message" := JObj {[ "length" := JObj {[ "toString" := JNum 0%float ]} ]} ]}))
  = serverError.
Proof. split; vm_compute; reflexivity. Qed.

(** ** Closed examples of the further properties *)

Lemma crafted_forwarded :
  In (Fetch "header.claims.signature" craftedSent)
    (snd (contactHandler Part_000 (answering 200 "ok") (browserRequest craftedBody))).
Proof. vm_compute. right. left. reflexivity. Qed.

Lemma result_shape_witness :
  let r := {| valid := false; errors := ErrArray ["Spam detected"] |} in
  (valid r = true ∧ errors r = ErrNull) ∨
  (valid r = false ∧
   (errors r = ErrArray ["Spam detected"] ∨
    ∃ text, errors r = ErrJoined text ∧ text ≠ "")).
Proof.
  intros r. apply (result_shape Part_000 botBody r). vm_compute. reflexivity.
Defined.

Lemma empty_honeypot_ignored_witness :
  validateContactBody Part_000 (<["honeypot" := JStr "  "]> completeBody) =
  validateContactBody Part_000 (delete "honeypot" (<["honeypot" := JStr "  "]> completeBody)).
Proof.
  apply (empty_honeypot_ignored Part_000 (<["honeypot" := JStr "  "]> completeBody)).
  right. exists "  ". split; reflexivity.
Defined.

Lemma files_agree_unless_string_consent_witness :
  validateContactBody Index_mjs (<["privacyConsent" := JBool true]> completeBody) =
  validateContactBody Part_000 (<["privacyConsent" := JBool true]> completeBody).
Proof.
  apply (files_agree_unless_string_consent (<["privacyConsent" := JBool true]> completeBody)).
  reflexivity.
Defined.

Lemma failed_reasons_joined_witness :
  ∃ long, messageTooLong (∅ : object) = Normal long ∧
    validateContactBody Index_mjs ∅ =
    Normal {| valid := false;
              errors := ErrJoined "Name is required, Email is required, Subject is required, Message is required, Privacy consent is required" |}.
Proof.
  destruct (failed_reasons_joined Index_mjs ∅) as (long & Hl & Hr & _).
  - left. reflexivity.
  - exact I.
  - exists long. split; [exact Hl|]. rewrite Hr.
    vm_compute in Hl. injection Hl as <-. vm_compute. reflexivity.
Defined.

Lemma forward_only_when_valid_witness :
  validateContactBody Part_000 craftedBody = Normal {| valid := true; errors := ErrNull |} ∧
  signJWT (answering 200 "ok") = Normal "header.claims.signature".
Proof.
  apply (forward_only_when_valid Part_000 (answering 200 "ok") (browserRequest craftedBody)
           "header.claims.signature" craftedSent).
  vm_compute. right. left. reflexivity.
Defined.

Lemma forwarded_required_members_witness :
  ∃ n e s m,
    craftedBody !! "name" = Some (JStr n) ∧ member "name" craftedSent = Some (JStr (trim n)) ∧
    craftedBody !! "email" = Some (JStr e) ∧ member "email" craftedSent = Some (JStr (trim e)) ∧
    craftedBody !! "subject" = Some (JStr s) ∧ member "subject" craftedSent = Some (JStr (trim s)) ∧
    craftedBody !! "message" = Some (JStr m) ∧ member "message" craftedSent = Some (JStr (trim m)) ∧
    trim n ≠ "" ∧ trim e ≠ "" ∧ trim s ≠ "" ∧ trim m ≠ "" ∧
    (Z.of_nat (String.length (trim m)) <= 5000)%Z.
Proof.
  apply (forwarded_required_members Part_000 (answering 200 "ok") (browserRequest craftedBody)
           "header.claims.signature" craftedSent).
  vm_compute. right. left. reflexivity.
Defined.

Lemma forwarded_keys_witness :
  fst <$> craftedSent = payloadKeys Part_000.
Proof.
  apply (forwarded_keys Part_000 (answering 200 "ok") (browserRequest craftedBody)
           "header.claims.signature" craftedSent).
  vm_compute. right. left. reflexivity.
Defined.


Lemma forwarded_consents_witness :
  member "privacyConsent" craftedSent = Some (JBool true) ∧
  member "whatsappConsent" craftedSent =
  Some (JBool (consentAccepted (craftedBody !! "whatsappConsent"))).
Proof.
  apply (forwarded_consents (answering 200 "ok") (browserRequest craftedBody)
           "header.claims.signature" craftedSent).
  vm_compute. right. left. reflexivity.
Defined.

Lemma forwarded_as_given_witness :
  ∃ v, craftedBody !! "language" = Some v ∧
       member "language" craftedSent = Some (JSON_value v) ∧
       (∀ t, v = JStr t → member "language" craftedSent = Some (JStr t)) ∧
       (∀ b, v = JBool b → member "language" craftedSent = Some (JBool b)) ∧
       (∀ f, v = JNum f →
             member "language" craftedSent = Some (if isFinite f then JNum f else JNull)).
Proof.
  apply (forwarded_as_given Part_000 (answering 200 "ok") (browserRequest craftedBody)
           "header.claims.signature" craftedSent "language").
  - vm_compute. right. left. reflexivity.
  - right. left. reflexivity.
  - reflexivity.
Defined.

(** The array given as language is sent as it is; a timestamp of 1e400, which
    parses to Infinity, is truthy and is sent as null. *)
Lemma forwarded_as_given_examples :
  member "language" craftedSent = Some (JArr [JStr "de"; JStr "en"]) ∧
  ∃ jwt sent,
    In (Fetch jwt sent)
      (snd (contactHandler Part_000 (answering 200 "ok")
              (browserRequest (<["timestamp" := JNum PrimFloat.infinity]> completeBody)))) ∧
    member "timestamp" sent = Some JNull.
Proof.
  split; [reflexivity|].
  eexists _, _. split; [vm_compute; right; left; reflexivity | reflexivity].
Qed.

Lemma forwarded_company_phone_witness :
  ∃ c, craftedBody !! "company" = Some (JStr c) ∧
       member "company" craftedSent = Some (JStr (trim c)).
Proof.
  apply (forwarded_company_phone Part_000 (answering 200 "ok") (browserRequest craftedBody)
           "header.claims.signature" craftedSent "company").
  - vm_compute. right. left. reflexivity.
  - left. reflexivity.
  - reflexivity.
Defined.

Lemma untyped_optional_field_fails_witness :
  contactHandler Part_000 (answering 200 "ok")
    (browserRequest (<["company" := JNum 7%float]> completeBody)) =
  ({| status := 500; json := [("ok", JBool false); ("error", JStr "Server error")] |},
   [Validate (<["company" := JNum 7%float]> completeBody);
    ConsoleError (LogUnexpected TypeError)]).
Proof.
  refine (untyped_optional_field_fails Part_000 (answering 200 "ok")
            (browserRequest (<["company" := JNum 7%float]> completeBody)) _ _).
  - vm_compute. reflexivity.
  - left. split; reflexivity.
Defined.

Lemma valid_submission_forwarded_witness :
  let h := contactHandler Part_000 (answering 503 "upstream unavailable")
             (browserRequest completeBody) in
  ∃ sent,
    In (Fetch "header.claims.signature" sent) (snd h) ∧
    countFetch (snd h) = 1 ∧
    fst h =
    match downstream (answering 503 "upstream unavailable") "header.claims.signature" sent with
    | FetchRejected _ => n8nError
    | FetchResponse st _ => if responseOk st then okResponse else n8nError
    end.
Proof.
  intros h.
  apply (valid_submission_forwarded Part_000 (answering 503 "upstream unavailable")
           (browserRequest completeBody) "header.claims.signature").
  - vm_compute. reflexivity.
  - left. reflexivity.
  - left. reflexivity.
  - reflexivity.
Defined.

Lemma success_means_delivered_witness :
  ∃ jwt sent st text,
    In (Fetch jwt sent)
      (snd (contactHandler Part_000 (answering 200 "ok") (browserRequest completeBody))) ∧
    downstream (answering 200 "ok") jwt sent = FetchResponse st text ∧
    responseOk st = true.
Proof.
  apply (success_means_delivered Part_000 (answering 200 "ok") (browserRequest completeBody)).
  vm_compute. reflexivity.
Defined.

Lemma signer_failure_witness :
  countFetch (snd (contactHandler Part_000 unsigned (browserRequest completeBody))) = 0 ∧
  In (status (fst (contactHandler Part_000 unsigned (browserRequest completeBody))))
    [400; 500]%Z.
Proof.
  apply (signer_failure Part_000 unsigned (browserRequest completeBody) SigningError).
  reflexivity.
Defined.


Lemma key_is_forwarded_address_witness :
  keyGenerator (browserRequest completeBody) = trim (firstSegment "203.0.113.7, 10.0.0.1") ∧
  getClientIp (browserRequest completeBody) = trim (firstSegment "203.0.113.7, 10.0.0.1").
Proof.
  apply (key_is_forwarded_address (browserRequest completeBody) "203.0.113.7, 10.0.0.1").
  - reflexivity.
  - reflexivity.
Defined.

Lemma getClientIp_forwarded_witness :
  let req := browserRequest completeBody in
  getClientIp req = trim (firstSegment "203.0.113.7, 10.0.0.1") ∧
  everyUnit notComma (getClientIp req) = true ∧
  trim (getClientIp req) = getClientIp req.
Proof.
  intros req.
  apply (getClientIp_forwarded req "203.0.113.7, 10.0.0.1").
  - reflexivity.
  - discriminate.
Defined.

(** Where the key of the limiter and the forwarded address part: a first
    element that is not made of digits and dots is forwarded as the client's
    address, and the limiter counts the request under [req.ip]. *)
Lemma key_and_address_part :
  let req := {| req_body := completeBody;
                req_headers := {[ "x-forwarded-for" := "2001:db8::1, 10.0.0.1" ]};
                req_ip := Some "10.0.0.1";
                socket_remoteAddress := Some "10.0.0.1" |} in
  getClientIp req = "2001:db8::1" ∧ keyGenerator req = "10.0.0.1".
Proof. split; vm_compute; reflexivity. Qed.

(** A header that starts with a comma gives the empty address. *)
Lemma empty_address_example :
  getClientIp {| req_body := completeBody;
                 req_headers := {[ "x-forwarded-for" := ", 10.0.0.1" ]};
                 req_ip := None;
                 socket_remoteAddress := Some "10.0.0.1" |} = "".
Proof. vm_compute. reflexivity. Qed.
